(** * Knowledge-graph query engine of llama_index: a shallow embedding

    Sources embedded here:
    - [llama_index/query_engine/knowledge_graph_query_engine.py]
      (the prompt templates, [KnowledgeGraphQueryEngine.__init__],
      [generate_query], [agenerate_query], [_query], [_aquery]);
    - [llama_index/llm_predictor/mock.py] ([MockLLMPredictor] and its helpers);
    - [llama_index/llms/mock.py] ([MockLLM]).

    Python exceptions are values of [Exn]; a call that may raise returns
    [Exn + A].  The engine's methods run in a state-and-error monad [M] over
    a [World] that holds the callback manager's event trace, its id supply,
    the standard output, the logger and a record of the calls made to the
    collaborators (graph store, LLM predictor, response synthesizer). *)

From Stdlib Require Import ZArith String Ascii List Floats.
From stdpp Require Import base gmap strings list pretty.

Open Scope string_scope.

(** ** Python values and exceptions *)

(** The exceptions the embedded code raises itself ([AssertionError],
    [KeyError], [ValueError], [TypeError], [NotImplementedError]) and
    [RuntimeError] for whatever a collaborator raises. *)
Inductive Exn : Type :=
| AssertionError (msg : string)
| KeyError (key : string)
| ValueError (msg : string)
| TypeError (msg : string)
| NotImplementedError
| RuntimeError (msg : string).

(** Values of keyword arguments ([**prompt_args: Any]): strings and ints are
    the two kinds the embedded code reads. *)
Inductive PyVal : Type :=
| VStr (s : string)
| VInt (n : Z).

(** Python's [str(v)]. *)
Definition str (v : PyVal) : string :=
  match v with
  | VStr s => s
  | VInt n => pretty n
  end.

(** A [Dict[str, Any]]. *)
Abbreviation Dict := (gmap string PyVal).

(** [d[key]]: a [KeyError] when the key is absent. *)
Definition getitem (d : Dict) (key : string) : Exn + PyVal :=
  match d !! key with
  | Some v => inr v
  | None => inl (KeyError key)
  end.

Definition as_str (v : PyVal) : Exn + string :=
  match v with
  | VStr s => inr s
  | VInt _ => inl (TypeError "expected string or buffer")
  end.

Definition as_int (v : PyVal) : Exn + Z :=
  match v with
  | VInt n => inr n
  | VStr _ => inl (TypeError "'str' object cannot be interpreted as an integer")
  end.

(** [sep.join(parts)]. *)
Fixpoint join (sep : string) (parts : list string) : string :=
  match parts with
  | [] => ""
  | [p] => p
  | p :: rest => p +:+ sep +:+ join sep rest
  end.

(** [range(n)]: empty for [n <= 0]. *)
Definition range (n : Z) : list Z :=
  map Z.of_nat (seq 0 (Z.to_nat n)).

(** A Python [str] is held as its UTF-8 bytes.  Iterating a [str]
    ([for ch in s]) yields its characters (code points), each of which is a
    first byte followed by its continuation bytes (the bytes 10xxxxxx). *)
Definition is_continuation (c : ascii) : bool :=
  match c with
  | Ascii _ _ _ _ _ _ b6 b7 => b7 && negb b6
  end.

Definition starts_with_continuation (s : string) : bool :=
  match s with
  | EmptyString => false
  | String c _ => is_continuation c
  end.

Fixpoint characters (s : string) : list string :=
  match s with
  | EmptyString => []
  | String c rest =>
      match characters rest with
      | [] => [String c ""]
      | next :: more =>
          if starts_with_continuation rest
          then String c next :: more
          else String c "" :: next :: more
      end
  end.

(** ** Sequencing calls that may raise *)

Definition ebind {A B : Type} (c : Exn + A) (k : A -> Exn + B) : Exn + B :=
  match c with
  | inl e => inl e
  | inr a => k a
  end.

Notation "'try' x <- c ; k" := (ebind c (fun x => k))
  (at level 10, x name, c at level 100, k at level 200).

(** ** Prompts *)

(** [llama_index.prompts.prompt_type.PromptType]: the members the sources
    name; [OtherPromptType] stands for the remaining members of the enum. *)
Inductive PromptType : Type :=
| SUMMARY
| TREE_INSERT
| TREE_SELECT
| TREE_SELECT_MULTIPLE
| REFINE
| QUESTION_ANSWER
| KEYWORD_EXTRACT
| QUERY_KEYWORD_EXTRACT
| KNOWLEDGE_TRIPLET_EXTRACT
| CUSTOM
| TEXT_TO_GRAPH_QUERY
| OtherPromptType (value : string).

Record Prompt : Type := mkPrompt {
  template : string;
  prompt_type : PromptType;
  partial_dict : Dict
}.

(** [Prompt(template, prompt_type=...)]. *)
Definition Prompt_init (tmpl : string) (pt : PromptType) : Prompt :=
  {| template := tmpl; prompt_type := pt; partial_dict := ∅ |}.

Definition lbrace : ascii := "{"%char.
Definition rbrace : ascii := "}"%char.

(** Modelled from the spec: the template rendering of [Prompt.format]
    (llama_index/prompts/base.py is not among the sources).  A template is
    a text with named substitution slots [{name}]; a slot is replaced by
    [str] of the substitution of that name, the substituted text is not
    scanned again, and a slot with no substitution is a [KeyError]
    (section 4.3: "a missing required substitution key").  [slot] is [None]
    outside a slot and [Some name] while the slot's name is being read. *)
Fixpoint fill (kwargs : Dict) (slot : option string) (tmpl : string)
  : Exn + string :=
  match tmpl, slot with
  | EmptyString, None => inr ""
  | EmptyString, Some _ =>
      inl (ValueError "expected '}' before end of string")
  | String c rest, None =>
      if Ascii.eqb c lbrace then fill kwargs (Some "") rest
      else if Ascii.eqb c rbrace then
        inl (ValueError "Single '}' encountered in format string")
      else
        try s <- fill kwargs None rest; inr (String c s)
  | String c rest, Some name =>
      if Ascii.eqb c rbrace then
        try v <- getitem kwargs name;
        try s <- fill kwargs None rest;
        inr (str v +:+ s)
      else fill kwargs (Some (name +:+ String c "")) rest
  end.

(** [prompt.format] applied to keyword arguments. *)
Definition format (prompt : Prompt) (kwargs : Dict) : Exn + string :=
  fill kwargs None (template prompt).

(** ** Nodes, query bundles and responses

    These classes are declared in files that are not among the sources
    (llama_index/schema.py, indices/query/schema.py, response/schema.py);
    the records below hold what the embedded code passes to them. *)

(** The keyword arguments of a [TextNode(text=, score=, metadata=)] call. *)
Record TextNode : Type := mkTextNode {
  text : string;
  text_node_score : option float;
  metadata : gmap string string
}.

(** A [NodeWithScore(node=, score=)] call; [score] is [None] when the call
    passes no [score] argument. *)
Record NodeWithScore : Type := mkNodeWithScore {
  node : TextNode;
  score : option float
}.

Record QueryBundle : Type := mkQueryBundle {
  query_str : string
}.

(** Modelled from the spec: the final answer (RESPONSE_TYPE), which the
    engine prints and passes on. *)
Record Response : Type := mkResponse {
  response : string
}.

(** ** The world the engine runs in *)

(** [llama_index.callbacks.schema.CBEventType], the members the sources use. *)
Inductive CBEventType : Type := QUERY | RETRIEVE | LLM.

(** [llama_index.callbacks.schema.EventPayload], the members the sources use. *)
Inductive EventPayload : Type := QUERY_STR | RESPONSE | TEMPLATE | PROMPT.

(** Keys of a payload dictionary: members of [EventPayload] or plain
    strings (kept apart here). *)
Inductive PayloadKey : Type :=
| EP (k : EventPayload)
| SK (k : string).

Inductive PayloadVal : Type :=
| PAny (v : PyVal)
| PPrompt (p : Prompt)
| PResponse (r : Response).

Abbreviation Payload := (list (PayloadKey * PayloadVal)).

(** What a callback handler sees: the start and the end of a span. *)
Inductive CBEvent : Type :=
| EventStart (kind : CBEventType) (payload : Payload) (event_id : nat)
| EventEnd (kind : CBEventType) (payload : Payload) (event_id : nat).

(** A call to a collaborator, with its arguments. *)
Inductive Call : Type :=
| get_schema_call (refresh : bool)
| graph_store_query_call (query : string)
| predict_call (prompt : Prompt) (kwargs : Dict)
| apredict_call (prompt : Prompt) (kwargs : Dict)
| synthesize_call (query : QueryBundle) (nodes : list NodeWithScore)
| asynthesize_call (query : QueryBundle) (nodes : list NodeWithScore).

(** The state a call runs in: the events the engine has handed to its
    callback manager ([events]) and the next fresh event id ([next_id]);
    the calls it has made to its collaborators ([calls]); what it has
    printed ([stdout], text and colour) and logged ([logged]).  Events that
    the collaborators emit on their own are not part of [events]. *)
Record World : Type := mkWorld {
  events : list CBEvent;
  next_id : nat;
  calls : list Call;
  stdout : list (string * string);
  logged : list string
}.

Definition M (A : Type) : Type := World -> (Exn + A) * World.

Definition ret {A : Type} (a : A) : M A := fun w => (inr a, w).

Definition raise {A : Type} (e : Exn) : M A := fun w => (inl e, w).

Definition bind {A B : Type} (c : M A) (k : A -> M B) : M B :=
  fun w =>
    match c w with
    | (inl e, w') => (inl e, w')
    | (inr a, w') => k a w'
    end.

Notation "x <- c ;; k" := (bind c (fun x => k))
  (at level 100, c at next level, right associativity).
Notation "c ;; k" := (bind c (fun _ => k))
  (at level 100, right associativity).

(** An expression that may raise, evaluated in the current world. *)
Definition lift {A : Type} (c : Exn + A) : M A := fun w => (c, w).

(** The updates of the world. *)
Definition emit (ev : CBEvent) (w : World) : World :=
  {| events := events w ++ [ev]; next_id := next_id w; calls := calls w;
     stdout := stdout w; logged := logged w |}.

Definition take_id (w : World) : World :=
  {| events := events w; next_id := S (next_id w); calls := calls w;
     stdout := stdout w; logged := logged w |}.

Definition record_call (c : Call) (w : World) : World :=
  {| events := events w; next_id := next_id w; calls := calls w ++ [c];
     stdout := stdout w; logged := logged w |}.

Definition write_stdout (txt color : string) (w : World) : World :=
  {| events := events w; next_id := next_id w; calls := calls w;
     stdout := stdout w ++ [(txt, color)]; logged := logged w |}.

Definition write_log (msg : string) (w : World) : World :=
  {| events := events w; next_id := next_id w; calls := calls w;
     stdout := stdout w; logged := logged w ++ [msg] |}.

(** A call to a collaborator: the call is recorded, then its outcome is
    returned or raised. *)
Definition call {A : Type} (c : Call) (outcome : Exn + A) : M A :=
  fun w => (outcome, record_call c w).

(** Modelled from the spec: the event sink of section 6
    (llama_index/callbacks/base.py is not among the sources).
    [on_event_start] generates a fresh id, shows the start event to the
    handlers and returns the id; [on_event_end] shows the end event with
    the id it is given. *)
Definition on_event_start (kind : CBEventType) (payload : Payload) : M nat :=
  fun w =>
    (inr (next_id w), take_id (emit (EventStart kind payload (next_id w)) w)).

Definition on_event_end (kind : CBEventType) (payload : Payload)
  (event_id : nat) : M unit :=
  fun w => (inr tt, emit (EventEnd kind payload event_id) w).

(** [print_text(text, color=...)] and [logger.info(msg)]. *)
Definition print_text (txt color : string) : M unit :=
  fun w => (inr tt, write_stdout txt color w).

Definition logger_info (msg : string) : M unit :=
  fun w => (inr tt, write_log msg w).

(** [if cond: body]. *)
Definition when (cond : bool) (body : M unit) : M unit :=
  if cond then body else ret tt.

(** [assert x is not None, msg]. *)
Definition assert_not_None {A : Type} (x : option A) (msg : string) : M A :=
  match x with
  | Some a => ret a
  | None => raise (AssertionError msg)
  end.

Definition newline : string := String (ascii_of_nat 10) "".

(** ** Collaborators *)

(** [llama_index.graph_stores.registery.GraphStoreType]: [NEBULA] is the
    member the sources name; [OtherGraphStoreType] stands for the remaining
    members of the enum. *)
Inductive GraphStoreType : Type :=
| NEBULA
| OtherGraphStoreType (name : string).

Global Instance GraphStoreType_eq_dec : EqDecision GraphStoreType.
Proof. solve_decision. Defined.

Definition GraphStoreType_to_option (t : GraphStoreType) : option string :=
  match t with
  | NEBULA => None
  | OtherGraphStoreType n => Some n
  end.

Definition GraphStoreType_of_option (o : option string) : GraphStoreType :=
  match o with
  | None => NEBULA
  | Some n => OtherGraphStoreType n
  end.

Lemma GraphStoreType_of_to_option (t : GraphStoreType) :
  GraphStoreType_of_option (GraphStoreType_to_option t) = t.
Proof. destruct t; reflexivity. Qed.

Global Instance GraphStoreType_countable : Countable GraphStoreType :=
  inj_countable' GraphStoreType_to_option GraphStoreType_of_option
    GraphStoreType_of_to_option.

Definition GraphStoreType_repr (t : GraphStoreType) : string :=
  match t with
  | NEBULA => "GraphStoreType.NEBULA"
  | OtherGraphStoreType n => "GraphStoreType." +:+ n
  end.

(** The graph backend: its class (by name), [get_schema(refresh)] and
    [query(query)]. *)
Record GraphStore : Type := mkGraphStore {
  __class__ : string;
  get_schema : bool -> Exn + string;
  query : string -> Exn + string
}.

Record StorageContext : Type := mkStorageContext {
  storage_graph_store : option GraphStore
}.

(** The completion capability ([BaseLLMPredictor]). *)
Record BaseLLMPredictor : Type := mkLLMPredictor {
  predict : Prompt -> Dict -> Exn + string;
  apredict : Prompt -> Dict -> Exn + string
}.

Record ServiceContext : Type := mkServiceContext {
  llm_predictor : BaseLLMPredictor
}.

(** The answer synthesis capability ([BaseSynthesizer]). *)
Record BaseSynthesizer : Type := mkSynthesizer {
  synthesize : QueryBundle -> list NodeWithScore -> Exn + Response;
  asynthesize : QueryBundle -> list NodeWithScore -> Exn + Response
}.

(** ** knowledge_graph_query_engine.py *)

Definition DEFAULT_NEBULAGRAPH_NL2CYPHER_PROMPT_TMPL : string :=
"
Generate NebulaGraph query from natural language.
Use only the provided relationship types and properties in the schema.
Do not use any other relationship types or properties that are not provided.
Schema:
---
{schema}
---
Note: NebulaGraph speaks a dialect of Cypher, comparing to standard Cypher:

1. it uses double equals sign for comparison: `==` rather than `=`
2. it needs explicit label specification when referring to node properties, i.e.
v is a variable of a node, and we know its label is Foo, v.`foo`.name is correct
while v.name is not.

For example, see this diff between standard and NebulaGraph Cypher dialect:
```diff
< MATCH (p:person)-[:directed]->(m:movie) WHERE m.name = 'The Godfather'
< RETURN p.name;
---
> MATCH (p:`person`)-[:directed]->(m:`movie`) WHERE m.`movie`.`name` == 'The Godfather'
> RETURN p.`person`.`name`;
```

Question: {query_str}

NebulaGraph Cypher dialect query:
".

Definition DEFAULT_NEBULAGRAPH_NL2CYPHER_PROMPT : Prompt :=
  Prompt_init DEFAULT_NEBULAGRAPH_NL2CYPHER_PROMPT_TMPL TEXT_TO_GRAPH_QUERY.

Definition DEFAULT_NL2GRAPH_PROMPT_MAP : gmap GraphStoreType Prompt :=
  {[ NEBULA := DEFAULT_NEBULAGRAPH_NL2CYPHER_PROMPT ]}.

Definition DEFAULT_KG_RESPONSE_ANSWER_PROMPT_TMPL : string :=
"
The original question is given below.
This question has been translated into a Graph Database query.
Both the Graph query and the response are given below.
Given the Graph Query response, synthesise a response to the original question.

Original question: {query_str}
Graph query: {kg_query_str}
Graph response: {kg_response_str}
Response: 
".

Definition DEFAULT_KG_RESPONSE_ANSWER_PROMPT : Prompt :=
  Prompt_init DEFAULT_KG_RESPONSE_ANSWER_PROMPT_TMPL QUESTION_ANSWER.

Record KnowledgeGraphQueryEngine : Type := mkEngine {
  _storage_context : StorageContext;
  graph_store : GraphStore;
  _service_context : ServiceContext;
  _graph_store_type : GraphStoreType;
  _graph_schema : string;
  _graph_query_synthesis_prompt : Prompt;
  _graph_response_answer_prompt : Prompt;
  _verbose : bool;
  _response_synthesizer : BaseSynthesizer
}.

Section Construction.

(** Declared in files that are not among the sources: the registry of
    graph store classes (graph_stores/registery.py), the default service
    context and the default response synthesizer. *)
Variable GRAPH_STORE_CLASS_TO_GRAPH_STORE_TYPE : gmap string GraphStoreType.
Variable ServiceContext_from_defaults : ServiceContext.
Variable get_response_synthesizer : ServiceContext -> BaseSynthesizer.

Definition __init__
  (service_context : option ServiceContext)
  (storage_context : option StorageContext)
  (graph_query_synthesis_prompt : option Prompt)
  (graph_response_answer_prompt : option Prompt)
  (refresh_schema : bool)
  (verbose : bool)
  (response_synthesizer : option BaseSynthesizer)
  : M KnowledgeGraphQueryEngine :=
  (* Ensure that we have a graph store *)
  storage_context' <-
    assert_not_None storage_context "Must provide a storage context." ;;
  graph_store' <-
    assert_not_None (storage_graph_store storage_context')
      "Must provide a graph store in the storage context." ;;
  let service_context' :=
    match service_context with
    | Some sc => sc
    | None => ServiceContext_from_defaults
    end in
  (* Get Graph Store Type *)
  graph_store_type <-
    match GRAPH_STORE_CLASS_TO_GRAPH_STORE_TYPE !! __class__ graph_store' with
    | Some t => ret t
    | None => raise (KeyError (__class__ graph_store'))
    end ;;
  (* Get Graph schema *)
  graph_schema <-
    call (get_schema_call refresh_schema)
      (get_schema graph_store' refresh_schema) ;;
  (* Get graph store query synthesis prompt *)
  query_synthesis_prompt <-
    match graph_query_synthesis_prompt with
    | Some p => ret p
    | None =>
        match DEFAULT_NL2GRAPH_PROMPT_MAP !! graph_store_type with
        | Some p => ret p
        | None => raise (KeyError (GraphStoreType_repr graph_store_type))
        end
    end ;;
  let response_answer_prompt :=
    match graph_response_answer_prompt with
    | Some p => p
    | None => DEFAULT_KG_RESPONSE_ANSWER_PROMPT
    end in
  let response_synthesizer' :=
    match response_synthesizer with
    | Some s => s
    | None => get_response_synthesizer service_context'
    end in
  ret {| _storage_context := storage_context';
         graph_store := graph_store';
         _service_context := service_context';
         _graph_store_type := graph_store_type;
         _graph_schema := graph_schema;
         _graph_query_synthesis_prompt := query_synthesis_prompt;
         _graph_response_answer_prompt := response_answer_prompt;
         _verbose := verbose;
         _response_synthesizer := response_synthesizer' |}.

End Construction.

(** Generate a Graph Store Query from a query bundle. *)
Definition generate_query (self : KnowledgeGraphQueryEngine)
  (query_str : string) : M string :=
  let kwargs : Dict :=
    <["query_str" := VStr query_str]>
      (<["schema" := VStr (_graph_schema self)]> ∅) in
  graph_store_query <-
    call (predict_call (_graph_query_synthesis_prompt self) kwargs)
      (predict (llm_predictor (_service_context self))
         (_graph_query_synthesis_prompt self) kwargs) ;;
  ret graph_store_query.

Definition agenerate_query (self : KnowledgeGraphQueryEngine)
  (query_str : string) : M string :=
  let kwargs : Dict :=
    <["query_str" := VStr query_str]>
      (<["schema" := VStr (_graph_schema self)]> ∅) in
  graph_store_query <-
    call (apredict_call (_graph_query_synthesis_prompt self) kwargs)
      (apredict (llm_predictor (_service_context self))
         (_graph_query_synthesis_prompt self) kwargs) ;;
  ret graph_store_query.

(** Query the graph store. *)
Definition _query (self : KnowledgeGraphQueryEngine)
  (query_bundle : QueryBundle) : M Response :=
  query_id <-
    on_event_start QUERY
      [(EP QUERY_STR, PAny (VStr (query_str query_bundle)))] ;;
  graph_store_query <- generate_query self (query_str query_bundle) ;;
  when (_verbose self)
    (print_text ("Graph Store Query: " +:+ graph_store_query +:+ newline)
       "yellow") ;;
  logger_info ("Graph Store Query: " +:+ graph_store_query) ;;
  retrieve_id <-
    on_event_start RETRIEVE [(EP QUERY_STR, PAny (VStr graph_store_query))] ;;
  (* Get the graph store response *)
  graph_store_response <-
    call (graph_store_query_call graph_store_query)
      (query (graph_store self) graph_store_query) ;;
  when (_verbose self)
    (print_text ("Graph Store Response: " +:+ graph_store_response +:+ newline)
       "yellow") ;;
  logger_info ("Graph Store Response: " +:+ graph_store_response) ;;
  on_event_end RETRIEVE [(EP RESPONSE, PAny (VStr graph_store_response))]
    retrieve_id ;;
  prompt_string <-
    lift (format (_graph_response_answer_prompt self)
            (<["query_str" := VStr (query_str query_bundle)]>
               (<["kg_query_str" := VStr graph_store_query]>
                  (<["kg_response_str" := VStr graph_store_response]> ∅)))) ;;
  let node' :=
    {| node :=
         {| text := prompt_string;
            text_node_score := Some 1.0%float;
            metadata :=
              <["query_str" := query_str query_bundle]>
                (<["graph_store_query" := graph_store_query]>
                   (<["graph_store_response" := graph_store_response]>
                      (<["graph_schema" := _graph_schema self]> ∅))) |};
       score := None |} in
  response' <-
    call (synthesize_call query_bundle [node'])
      (synthesize (_response_synthesizer self) query_bundle [node']) ;;
  when (_verbose self)
    (print_text ("Final Response: " +:+ response response' +:+ newline)
       "green") ;;
  on_event_end QUERY [(EP RESPONSE, PResponse response')] query_id ;;
  ret response'.

Definition _aquery (self : KnowledgeGraphQueryEngine)
  (query_bundle : QueryBundle) : M Response :=
  query_id <-
    on_event_start QUERY
      [(EP QUERY_STR, PAny (VStr (query_str query_bundle)))] ;;
  graph_store_query <- agenerate_query self (query_str query_bundle) ;;
  when (_verbose self)
    (print_text ("Graph Store Query: " +:+ graph_store_query +:+ newline)
       "yellow") ;;
  logger_info ("Graph Store Query: " +:+ graph_store_query) ;;
  retrieve_id <-
    on_event_start RETRIEVE [(EP QUERY_STR, PAny (VStr graph_store_query))] ;;
  (* Get the graph store response; a blocking call in the source too *)
  graph_store_response <-
    call (graph_store_query_call graph_store_query)
      (query (graph_store self) graph_store_query) ;;
  when (_verbose self)
    (print_text ("Graph Store Response: " +:+ graph_store_response +:+ newline)
       "yellow") ;;
  logger_info ("Graph Store Response: " +:+ graph_store_response) ;;
  on_event_end RETRIEVE [(EP RESPONSE, PAny (VStr graph_store_response))]
    retrieve_id ;;
  prompt_string <-
    lift (format (_graph_response_answer_prompt self)
            (<["query_str" := VStr (query_str query_bundle)]>
               (<["kg_query_str" := VStr graph_store_query]>
                  (<["kg_response_str" := VStr graph_store_response]> ∅)))) ;;
  let node' :=
    {| node :=
         {| text := prompt_string;
            text_node_score := Some 1.0%float;
            metadata :=
              <["query_str" := query_str query_bundle]>
                (<["graph_store_query" := graph_store_query]>
                   (<["graph_store_response" := graph_store_response]>
                      (<["graph_schema" := _graph_schema self]> ∅))) |};
       score := None |} in
  response' <-
    call (asynthesize_call query_bundle [node'])
      (asynthesize (_response_synthesizer self) query_bundle [node']) ;;
  when (_verbose self)
    (print_text ("Final Response: " +:+ response response' +:+ newline)
       "green") ;;
  on_event_end QUERY [(EP RESPONSE, PResponse response')] query_id ;;
  ret response'.

(** ** llm_predictor/mock.py *)

Module LLMPredictorMock.
Section Helpers.

(** Declared in files that are not among the sources:
    [globals_helper.tokenizer] and [count_tokens] (llama_index/utils.py),
    [mock_extract_keywords_response] and
    [mock_extract_kg_triplets_response] (token_counter/utils.py).  They
    receive the keyword argument as it is and may raise. *)
Variable tokenizer : PyVal -> Exn + list string.
Variable count_tokens : string -> Z.
Variable mock_extract_keywords_response : PyVal -> Exn + string.
Variable mock_extract_kg_triplets_response : PyVal -> PyVal -> Exn + string.

(** [len(globals_helper.tokenizer(x))]. *)
Definition num_tokens (x : PyVal) : Exn + Z :=
  try toks <- tokenizer x; inr (Z.of_nat (length toks)).

(** [" ".join([word] * n)]. *)
Definition repeat_word (word : string) (n : Z) : string :=
  join " " (replicate (Z.to_nat n) word).

Definition _mock_summary_predict (max_tokens : Z) (prompt_args : Dict)
  : Exn + string :=
  try context_str <- getitem prompt_args "context_str";
  try num_text_tokens <- num_tokens context_str;
  let token_limit := Z.min num_text_tokens max_tokens in
  inr (repeat_word "summary" token_limit).

Definition _mock_insert_predict : string := "ANSWER: 1".

Definition _mock_query_select : string := "ANSWER: 1".

Definition _mock_query_select_multiple (num_chunks : PyVal) : Exn + string :=
  try n <- as_int num_chunks;
  let nums_str := join ", " (map (fun i => str (VInt i)) (range n)) in
  inr ("ANSWER: " +:+ nums_str).

Definition _mock_answer (max_tokens : Z) (prompt_args : Dict)
  : Exn + string :=
  try context_str <- getitem prompt_args "context_str";
  try num_ctx_tokens <- num_tokens context_str;
  let token_limit := Z.min num_ctx_tokens max_tokens in
  inr (repeat_word "answer" token_limit).

Definition _mock_refine (max_tokens : Z) (prompt : Prompt)
  (prompt_args : Dict) : Exn + string :=
  try existing_answer <-
    match prompt_args !! "existing_answer" with
    | None => getitem (partial_dict prompt) "existing_answer"
    | Some v => inr v
    end;
  try context_msg <- getitem prompt_args "context_msg";
  try num_ctx_tokens <- num_tokens context_msg;
  try num_exist_tokens <- num_tokens existing_answer;
  let token_limit := Z.min (num_ctx_tokens + num_exist_tokens) max_tokens in
  inr (repeat_word "answer" token_limit).

Definition _mock_keyword_extract (prompt_args : Dict) : Exn + string :=
  try txt <- getitem prompt_args "text";
  mock_extract_keywords_response txt.

Definition _mock_query_keyword_extract (prompt_args : Dict) : Exn + string :=
  try question <- getitem prompt_args "question";
  mock_extract_keywords_response question.

Definition _mock_knowledge_graph_triplet_extract (prompt_args : Dict)
  (max_triplets : PyVal) : Exn + string :=
  try txt <- getitem prompt_args "text";
  mock_extract_kg_triplets_response txt max_triplets.

Record MockLLMPredictor : Type := mkMockLLMPredictor {
  max_tokens : Z
}.

(** Log start of an LLM event. *)
Definition _log_start (self : MockLLMPredictor) (prompt : Prompt)
  (prompt_args : Dict) : M nat :=
  let llm_payload : Payload :=
    (map (fun kv => (SK (fst kv), PAny (snd kv))) (map_to_list prompt_args)
     ++ [(EP TEMPLATE, PPrompt prompt)])%list in
  event_id <- on_event_start LLM llm_payload ;;
  ret event_id.

(** Log end of an LLM event. *)
Definition _log_end (self : MockLLMPredictor) (event_id : nat)
  (output formatted_prompt : string) : M unit :=
  let prompt_tokens_count := count_tokens formatted_prompt in
  let prediction_tokens_count := count_tokens output in
  on_event_end LLM
    [(EP RESPONSE, PAny (VStr output));
     (EP PROMPT, PAny (VStr formatted_prompt));
     (SK "formatted_prompt_tokens_count", PAny (VInt prompt_tokens_count));
     (SK "prediction_tokens_count", PAny (VInt prediction_tokens_count));
     (SK "total_tokens_used",
      PAny (VInt (prompt_tokens_count + prediction_tokens_count)))]
    event_id.

(** Mock predict. *)
Definition predict (self : MockLLMPredictor) (prompt : Prompt)
  (prompt_args : Dict) : M string :=
  event_id <- _log_start self prompt prompt_args ;;
  formatted_prompt <- lift (format prompt prompt_args) ;;
  let prompt_str := prompt_type prompt in
  output <-
    match prompt_str with
    | SUMMARY => lift (_mock_summary_predict (max_tokens self) prompt_args)
    | TREE_INSERT => ret _mock_insert_predict
    | TREE_SELECT => ret _mock_query_select
    | TREE_SELECT_MULTIPLE =>
        lift (try num_chunks <- getitem prompt_args "num_chunks";
              _mock_query_select_multiple num_chunks)
    | REFINE => lift (_mock_refine (max_tokens self) prompt prompt_args)
    | QUESTION_ANSWER => lift (_mock_answer (max_tokens self) prompt_args)
    | KEYWORD_EXTRACT => lift (_mock_keyword_extract prompt_args)
    | QUERY_KEYWORD_EXTRACT => lift (_mock_query_keyword_extract prompt_args)
    | KNOWLEDGE_TRIPLET_EXTRACT =>
        lift (_mock_knowledge_graph_triplet_extract prompt_args
                (default (VInt 2)
                   (partial_dict prompt !! "max_knowledge_triplets")))
    | CUSTOM =>
        (* we don't know specific prompt type, return generic response *)
        ret ""
    | TEXT_TO_GRAPH_QUERY | OtherPromptType _ =>
        raise (ValueError "Invalid prompt type.")
    end ;;
  _log_end self event_id output formatted_prompt ;;
  ret output.

Definition stream (self : MockLLMPredictor) (prompt : Prompt)
  (prompt_args : Dict) : M (list string) :=
  raise NotImplementedError.

Definition apredict (self : MockLLMPredictor) (prompt : Prompt)
  (prompt_args : Dict) : M string :=
  predict self prompt prompt_args.

Definition astream (self : MockLLMPredictor) (prompt : Prompt)
  (prompt_args : Dict) : M (list string) :=
  raise NotImplementedError.

(** The prompt types that [predict] has a branch for. *)
Definition handled (pt : PromptType) : bool :=
  match pt with
  | SUMMARY | TREE_INSERT | TREE_SELECT | TREE_SELECT_MULTIPLE | REFINE
  | QUESTION_ANSWER | KEYWORD_EXTRACT | QUERY_KEYWORD_EXTRACT
  | KNOWLEDGE_TRIPLET_EXTRACT | CUSTOM => true
  | TEXT_TO_GRAPH_QUERY | OtherPromptType _ => false
  end.

End Helpers.
End LLMPredictorMock.

(** ** llms/mock.py *)

Module LLMsMock.

Record CompletionResponse : Type := mkCompletionResponse {
  text : string;
  delta : option string
}.

Record MockLLM : Type := mkMockLLM {
  max_tokens : option Z
}.

(** Truth value of an [Optional[int]]: [None] and [0] are false. *)
Definition truthy (x : option Z) : bool :=
  match x with
  | None => false
  | Some n => negb (n =? 0)%Z
  end.

Definition _generate_text (self : MockLLM) (length : Z) : string :=
  join " " (map (fun _ => "text") (range length)).

Definition complete (self : MockLLM) (prompt : string) : CompletionResponse :=
  let response_text :=
    match max_tokens self with
    | Some n => if truthy (Some n) then _generate_text self n else prompt
    | None => prompt
    end in
  {| text := response_text; delta := None |}.

(** The responses the generator of [stream_complete] yields, in order. *)
Definition stream_complete (self : MockLLM) (prompt : string)
  : list CompletionResponse :=
  let gen_prompt :=
    map (fun ch => {| text := prompt; delta := Some ch |})
      (characters prompt) in
  let gen_response (max_tokens : Z) :=
    map (fun i => {| text := _generate_text self i; delta := Some "text " |})
      (range max_tokens) in
  match max_tokens self with
  | Some n => if truthy (Some n) then gen_response n else gen_prompt
  | None => gen_prompt
  end.

End LLMsMock.

(** ** llms/anthropic.py *)

Module LLMsAnthropic.

(** Values of the keyword arguments sent to the client ([Dict[str, Any]]). *)
Inductive Any : Type :=
| AStr (s : string)
| AInt (n : Z)
| AFloat (x : float)
| ABool (b : bool).

Abbreviation Kwargs := (gmap string Any).

(** [llama_index.llms.base.MessageRole]: [ASSISTANT] is the member the
    source names; [OtherRole] stands for the remaining members. *)
Inductive MessageRole : Type :=
| ASSISTANT
| OtherRole (name : string).

Record ChatMessage : Type := mkChatMessage {
  role : MessageRole;
  content : string
}.

(** What the client answers: a completion object, of which the code reads
    [completion]; [other_fields] are the fields it copies into [raw]. *)
Record Completion : Type := mkCompletion {
  completion : string;
  other_fields : Kwargs
}.

Record ChatResponse : Type := mkChatResponse {
  message : ChatMessage;
  delta : option string;
  raw : option Completion
}.

(** The client of the anthropic package, [completions.create]: with
    [stream=False] it answers one completion, with [stream=True] the chunks
    of a stream; both receive the prompt and the remaining keywords. *)
Record Client : Type := mkClient {
  create : string -> Kwargs -> Exn + Completion;
  create_stream : string -> Kwargs -> Exn + list Completion
}.

Record Anthropic : Type := mkAnthropic {
  _model : string;
  _temperature : float;
  _max_tokens : Z;
  _additional_kwargs : Kwargs;
  _client : Client;
  _aclient : Client
}.

(** [{**base_kwargs, **self._additional_kwargs}]: a later entry replaces an
    earlier one of the same key. *)
Definition _model_kwargs (self : Anthropic) : Kwargs :=
  let base_kwargs : Kwargs :=
    <["model" := AStr (_model self)]>
      (<["temperature" := AFloat (_temperature self)]>
         (<["max_tokens_to_sample" := AInt (_max_tokens self)]> ∅)) in
  _additional_kwargs self ∪ base_kwargs.

Definition _get_all_kwargs (self : Anthropic) (kwargs : Kwargs) : Kwargs :=
  kwargs ∪ _model_kwargs self.

(** A call [create(prompt=prompt, stream=..., **all_kwargs)] is a
    [TypeError] when [all_kwargs] names [prompt] or [stream] again. *)
Definition keywords_clash (all_kwargs : Kwargs) : bool :=
  bool_decide (is_Some (all_kwargs !! "prompt"))
  || bool_decide (is_Some (all_kwargs !! "stream")).

Definition multiple_values : Exn :=
  TypeError "got multiple values for keyword argument".

Section Chat.

(** Declared in llms/anthropic_utils.py, which is not among the sources. *)
Variable messages_to_anthropic_prompt : list ChatMessage -> string.

Definition chat (self : Anthropic) (messages : list ChatMessage)
  (kwargs : Kwargs) : Exn + ChatResponse :=
  let prompt := messages_to_anthropic_prompt messages in
  let all_kwargs := _get_all_kwargs self kwargs in
  try response <-
    (if keywords_clash all_kwargs then inl multiple_values
     else create (_client self) prompt all_kwargs);
  inr {| message := {| role := ASSISTANT; content := completion response |};
         delta := None;
         raw := Some response |}.

(** The responses the generator [gen] of [stream_chat] yields for the
    chunks [response], starting from the text [content]. *)
Fixpoint gen (content : string) (response : list Completion)
  : list ChatResponse :=
  match response with
  | [] => []
  | r :: rest =>
      let content_delta := completion r in
      let content' := content +:+ content_delta in
      {| message := {| role := ASSISTANT; content := content' |};
         delta := Some content_delta;
         raw := Some r |} :: gen content' rest
  end.

Definition stream_chat (self : Anthropic) (messages : list ChatMessage)
  (kwargs : Kwargs) : Exn + list ChatResponse :=
  let prompt := messages_to_anthropic_prompt messages in
  let all_kwargs := _get_all_kwargs self kwargs in
  try response <-
    (if keywords_clash all_kwargs then inl multiple_values
     else create_stream (_client self) prompt all_kwargs);
  inr (gen "" response).

Definition achat (self : Anthropic) (messages : list ChatMessage)
  (kwargs : Kwargs) : Exn + ChatResponse :=
  let prompt := messages_to_anthropic_prompt messages in
  let all_kwargs := _get_all_kwargs self kwargs in
  try response <-
    (if keywords_clash all_kwargs then inl multiple_values
     else create (_aclient self) prompt all_kwargs);
  inr {| message := {| role := ASSISTANT; content := completion response |};
         delta := None;
         raw := Some response |}.

Definition astream_chat (self : Anthropic) (messages : list ChatMessage)
  (kwargs : Kwargs) : Exn + list ChatResponse :=
  let prompt := messages_to_anthropic_prompt messages in
  let all_kwargs := _get_all_kwargs self kwargs in
  try response <-
    (if keywords_clash all_kwargs then inl multiple_values
     else create_stream (_aclient self) prompt all_kwargs);
  inr (gen "" response).

End Chat.
End LLMsAnthropic.

(** * Properties *)

(** ** Vocabulary *)

(** The two entry points and the two twins of each capability, selected by
    the execution mode. *)
Definition entry_point (async : bool)
  : KnowledgeGraphQueryEngine -> QueryBundle -> M Response :=
  if async then _aquery else _query.

Definition generation (async : bool)
  : KnowledgeGraphQueryEngine -> string -> M string :=
  if async then agenerate_query else generate_query.

Definition completion (async : bool) (p : BaseLLMPredictor)
  : Prompt -> Dict -> Exn + string :=
  if async then apredict p else predict p.

Definition completion_call (async : bool) : Prompt -> Dict -> Call :=
  if async then apredict_call else predict_call.

Definition synthesis (async : bool) (s : BaseSynthesizer)
  : QueryBundle -> list NodeWithScore -> Exn + Response :=
  if async then asynthesize s else synthesize s.

Definition synthesis_call (async : bool)
  : QueryBundle -> list NodeWithScore -> Call :=
  if async then asynthesize_call else synthesize_call.

(** The keyword arguments of the completion call. *)
Definition generation_kwargs (self : KnowledgeGraphQueryEngine)
  (question : string) : Dict :=
  <["query_str" := VStr question]>
    (<["schema" := VStr (_graph_schema self)]> ∅).

(** The keyword arguments that fill the answer template. *)
Definition answer_kwargs (question generated result : string) : Dict :=
  <["query_str" := VStr question]>
    (<["kg_query_str" := VStr generated]>
       (<["kg_response_str" := VStr result]> ∅)).

(** The payloads of the four span events of a call. *)
Definition query_start (question : string) (id : nat) : CBEvent :=
  EventStart QUERY [(EP QUERY_STR, PAny (VStr question))] id.

Definition retrieve_start (generated : string) (id : nat) : CBEvent :=
  EventStart RETRIEVE [(EP QUERY_STR, PAny (VStr generated))] id.

Definition retrieve_end (result : string) (id : nat) : CBEvent :=
  EventEnd RETRIEVE [(EP RESPONSE, PAny (VStr result))] id.

Definition query_end (answer : Response) (id : nat) : CBEvent :=
  EventEnd QUERY [(EP RESPONSE, PResponse answer)] id.

Definition CBEventType_eqb (a b : CBEventType) : bool :=
  match a, b with
  | QUERY, QUERY | RETRIEVE, RETRIEVE | LLM, LLM => true
  | _, _ => false
  end.

(** Is [ev] the end event of the span [(kind, id)]? *)
Definition ends (kind : CBEventType) (id : nat) (ev : CBEvent) : bool :=
  match ev with
  | EventEnd k _ i => CBEventType_eqb k kind && Nat.eqb i id
  | EventStart _ _ _ => false
  end.

(** The spans of a trace that were opened and not closed afterwards, in
    the order in which they were opened. *)
Fixpoint open_spans (trace : list CBEvent) : list (CBEventType * nat) :=
  match trace with
  | [] => []
  | EventStart kind _ id :: rest =>
      if existsb (ends kind id) rest then open_spans rest
      else (kind, id) :: open_spans rest
  | EventEnd _ _ _ :: rest => open_spans rest
  end.

(** The end events of a trace. *)
Definition is_end (ev : CBEvent) : bool :=
  match ev with
  | EventEnd _ _ _ => true
  | EventStart _ _ _ => false
  end.

Definition end_events (trace : list CBEvent) : list CBEvent :=
  List.filter is_end trace.

(** The events a run added to the trace. *)
Definition emitted (before after : World) : list CBEvent :=
  drop (length (events before)) (events after).

Definition made_calls (before after : World) : list Call :=
  drop (length (calls before)) (calls after).

Definition empty_world : World :=
  {| events := []; next_id := 0; calls := []; stdout := []; logged := [] |}.

(** ** Fixtures: the end-to-end scenario of the specification *)

Definition scenario_question : QueryBundle :=
  {| query_str := "Which actor starred in the movie X?" |}.

Definition scenario_schema : string := "(actor)-[:starred_in]->(movie)".

Definition scenario_generated : string :=
  "MATCH (a)-[:starred_in]->(m) WHERE m.name == 'X' RETURN a.name".

Definition scenario_store : GraphStore :=
  {| __class__ := "NebulaGraphStore";
     get_schema := fun _ => inr scenario_schema;
     query := fun _ => inr "Actor1" |}.

(** A backend whose execution step raises. *)
Definition failing_store : GraphStore :=
  {| __class__ := "NebulaGraphStore";
     get_schema := fun _ => inr scenario_schema;
     query := fun _ => inl (RuntimeError "SemanticError: no such tag") |}.

Definition scenario_predictor : BaseLLMPredictor :=
  {| predict := fun _ _ => inr scenario_generated;
     apredict := fun _ _ => inr scenario_generated |}.

Definition scenario_synthesizer : BaseSynthesizer :=
  {| synthesize := fun _ _ => inr {| response := "The actor is Actor1." |};
     asynthesize := fun _ _ => inr {| response := "The actor is Actor1." |} |}.

Definition scenario_registry : gmap string GraphStoreType :=
  <["NebulaGraphStore" := NEBULA]>
    (<["SimpleGraphStore" := OtherGraphStoreType "SIMPLE"]> ∅).

Definition scenario_engine_with (store : GraphStore)
  : KnowledgeGraphQueryEngine :=
  {| _storage_context := {| storage_graph_store := Some store |};
     graph_store := store;
     _service_context := {| llm_predictor := scenario_predictor |};
     _graph_store_type := NEBULA;
     _graph_schema := scenario_schema;
     _graph_query_synthesis_prompt := DEFAULT_NEBULAGRAPH_NL2CYPHER_PROMPT;
     _graph_response_answer_prompt := DEFAULT_KG_RESPONSE_ANSWER_PROMPT;
     _verbose := false;
     _response_synthesizer := scenario_synthesizer |}.

Definition scenario_engine : KnowledgeGraphQueryEngine :=
  scenario_engine_with scenario_store.

(** ** More vocabulary: calls, filled templates, construction fixtures *)

(** The synchronous twin of a call. *)
Definition sync_twin (c : Call) : Call :=
  match c with
  | apredict_call p kw => predict_call p kw
  | asynthesize_call q ns => synthesize_call q ns
  | other => other
  end.

(** In the words of the specification: the answer-synthesis template with
    [{query_str}], [{kg_query_str}] and [{kg_response_str}] replaced by the
    original question, the generated query and the backend result. *)
Definition filled_answer_template (question generated result : string)
  : string :=
  "
The original question is given below.
This question has been translated into a Graph Database query.
Both the Graph query and the response are given below.
Given the Graph Query response, synthesise a response to the original question.

Original question: "
  +:+ question
  +:+ "
Graph query: "
  +:+ generated
  +:+ "
Graph response: "
  +:+ result
  +:+ "
Response: 
".

(** In the words of the specification: the NebulaGraph dialect template
    with [{schema}] and [{query_str}] replaced by the schema and the
    question. *)
Definition filled_nebula_template (schema question : string) : string :=
  "
Generate NebulaGraph query from natural language.
Use only the provided relationship types and properties in the schema.
Do not use any other relationship types or properties that are not provided.
Schema:
---
"
  +:+ schema
  +:+ "
---
Note: NebulaGraph speaks a dialect of Cypher, comparing to standard Cypher:

1. it uses double equals sign for comparison: `==` rather than `=`
2. it needs explicit label specification when referring to node properties, i.e.
v is a variable of a node, and we know its label is Foo, v.`foo`.name is correct
while v.name is not.

For example, see this diff between standard and NebulaGraph Cypher dialect:
```diff
< MATCH (p:person)-[:directed]->(m:movie) WHERE m.name = 'The Godfather'
< RETURN p.name;
---
> MATCH (p:`person`)-[:directed]->(m:`movie`) WHERE m.`movie`.`name` == 'The Godfather'
> RETURN p.`person`.`name`;
```

Question: "
  +:+ question
  +:+ "

NebulaGraph Cypher dialect query:
".

(** The metadata of the evidence unit. *)
Definition evidence_metadata (self : KnowledgeGraphQueryEngine)
  (question generated result : string) : gmap string string :=
  <["query_str" := question]>
    (<["graph_store_query" := generated]>
       (<["graph_store_response" := result]>
          (<["graph_schema" := _graph_schema self]> ∅))).

(** Is [c] a call of [graph_store.get_schema]? *)
Definition is_get_schema_call (c : Call) : bool :=
  match c with
  | get_schema_call _ => true
  | _ => false
  end.

(** The engine [self] over a backend that from now on answers [get_schema]
    with [g]. *)
Definition with_backend_schema (g : bool -> Exn + string)
  (self : KnowledgeGraphQueryEngine) : KnowledgeGraphQueryEngine :=
  let store :=
    {| __class__ := __class__ (graph_store self);
       get_schema := g;
       query := query (graph_store self) |} in
  {| _storage_context := {| storage_graph_store := Some store |};
     graph_store := store;
     _service_context := _service_context self;
     _graph_store_type := _graph_store_type self;
     _graph_schema := _graph_schema self;
     _graph_query_synthesis_prompt := _graph_query_synthesis_prompt self;
     _graph_response_answer_prompt := _graph_response_answer_prompt self;
     _verbose := _verbose self;
     _response_synthesizer := _response_synthesizer self |}.

(** A store of a registered kind that has no default dialect template: a
    [SimpleGraphStore], whose [get_schema] raises [NotImplementedError]. *)
Definition simple_store : GraphStore :=
  {| __class__ := "SimpleGraphStore";
     get_schema := fun _ => inl NotImplementedError;
     query := fun _ => inr "Actor1" |}.



(** A synthesis prompt passed by the caller. *)
Definition custom_prompt : Prompt :=
  Prompt_init "Schema: {schema} Question: {query_str} Query:"
    TEXT_TO_GRAPH_QUERY.

Definition scenario_service_context : ServiceContext :=
  {| llm_predictor := scenario_predictor |}.

(** Fixtures for the functions of llama_index/utils.py and
    token_counter/utils.py. *)
Definition whitespace_tokenizer (x : PyVal) : Exn + list string :=
  try s <- as_str x; inr (String.words s).

Definition count_words (s : string) : Z := Z.of_nat (length (String.words s)).

Definition scenario_mock_predict (prompt : Prompt) (prompt_args : Dict)
  : M string :=
  LLMPredictorMock.predict whitespace_tokenizer count_words
    (fun _ => inr "KEYWORDS: a") (fun _ _ => inr "(a, b, c)")
    {| LLMPredictorMock.max_tokens := 256 |} prompt prompt_args.

(** ** The mock predictor as the engine's completion capability *)

(** [MockLLMPredictor] seen through the interface the engine calls: the
    outcome of [predict] and [apredict], run on the predictor's own
    callback manager (world [own]). *)
Definition mock_capability
  (tokenizer : PyVal -> Exn + list string) (count_tokens : string -> Z)
  (keywords_response : PyVal -> Exn + string)
  (triplets_response : PyVal -> PyVal -> Exn + string)
  (mock : LLMPredictorMock.MockLLMPredictor) (own : World)
  : BaseLLMPredictor :=
  {| predict := fun prompt prompt_args =>
       fst (LLMPredictorMock.predict tokenizer count_tokens keywords_response
              triplets_response mock prompt prompt_args own);
     apredict := fun prompt prompt_args =>
       fst (LLMPredictorMock.apredict tokenizer count_tokens
              keywords_response triplets_response mock prompt prompt_args
              own) |}.

(** The payload of the LLM start event of [predict]. *)
Definition llm_start_payload (prompt : Prompt) (prompt_args : Dict) : Payload :=
  (map (fun kv => (SK (fst kv), PAny (snd kv))) (map_to_list prompt_args)
   ++ [(EP TEMPLATE, PPrompt prompt)])%list.

(** The payload of the LLM end event of [predict]. *)
Definition llm_end_payload (count_tokens : string -> Z)
  (output formatted_prompt : string) : Payload :=
  [(EP RESPONSE, PAny (VStr output));
   (EP PROMPT, PAny (VStr formatted_prompt));
   (SK "formatted_prompt_tokens_count",
    PAny (VInt (count_tokens formatted_prompt)));
   (SK "prediction_tokens_count", PAny (VInt (count_tokens output)));
   (SK "total_tokens_used",
    PAny (VInt (count_tokens formatted_prompt + count_tokens output)))].

(** The key of [prompt_args] that the branch of [predict] for a prompt type
    reads first, for the types whose branch reads [prompt_args] only. *)
Definition first_key_read (pt : PromptType) : option string :=
  match pt with
  | SUMMARY | QUESTION_ANSWER => Some "context_str"
  | TREE_SELECT_MULTIPLE => Some "num_chunks"
  | KEYWORD_EXTRACT | KNOWLEDGE_TRIPLET_EXTRACT => Some "text"
  | QUERY_KEYWORD_EXTRACT => Some "question"
  | _ => None
  end.

(** More fixtures. *)
Definition failing_predictor : BaseLLMPredictor :=
  {| predict := fun _ _ => inl (RuntimeError "rate limit");
     apredict := fun _ _ => inl (RuntimeError "rate limit") |}.

Definition failing_synthesizer : BaseSynthesizer :=
  {| synthesize := fun _ _ => inl (RuntimeError "context overflow");
     asynthesize := fun _ _ => inl (RuntimeError "context overflow") |}.

(** An answer prompt with a slot the engine does not fill. *)
Definition unfillable_prompt : Prompt :=
  Prompt_init "Question: {query_str} Hint: {hint}" QUESTION_ANSWER.

Definition engine_with_predictor (p : BaseLLMPredictor)
  (self : KnowledgeGraphQueryEngine) : KnowledgeGraphQueryEngine :=
  {| _storage_context := _storage_context self;
     graph_store := graph_store self;
     _service_context := {| llm_predictor := p |};
     _graph_store_type := _graph_store_type self;
     _graph_schema := _graph_schema self;
     _graph_query_synthesis_prompt := _graph_query_synthesis_prompt self;
     _graph_response_answer_prompt := _graph_response_answer_prompt self;
     _verbose := _verbose self;
     _response_synthesizer := _response_synthesizer self |}.

Definition engine_with_synthesizer (syn : BaseSynthesizer)
  (self : KnowledgeGraphQueryEngine) : KnowledgeGraphQueryEngine :=
  {| _storage_context := _storage_context self;
     graph_store := graph_store self;
     _service_context := _service_context self;
     _graph_store_type := _graph_store_type self;
     _graph_schema := _graph_schema self;
     _graph_query_synthesis_prompt := _graph_query_synthesis_prompt self;
     _graph_response_answer_prompt := _graph_response_answer_prompt self;
     _verbose := _verbose self;
     _response_synthesizer := syn |}.

Definition engine_with_answer_prompt (p : Prompt)
  (self : KnowledgeGraphQueryEngine) : KnowledgeGraphQueryEngine :=
  {| _storage_context := _storage_context self;
     graph_store := graph_store self;
     _service_context := _service_context self;
     _graph_store_type := _graph_store_type self;
     _graph_schema := _graph_schema self;
     _graph_query_synthesis_prompt := _graph_query_synthesis_prompt self;
     _graph_response_answer_prompt := p;
     _verbose := _verbose self;
     _response_synthesizer := _response_synthesizer self |}.

Definition engine_with_verbose (v : bool)
  (self : KnowledgeGraphQueryEngine) : KnowledgeGraphQueryEngine :=
  {| _storage_context := _storage_context self;
     graph_store := graph_store self;
     _service_context := _service_context self;
     _graph_store_type := _graph_store_type self;
     _graph_schema := _graph_schema self;
     _graph_query_synthesis_prompt := _graph_query_synthesis_prompt self;
     _graph_response_answer_prompt := _graph_response_answer_prompt self;
     _verbose := v;
     _response_synthesizer := _response_synthesizer self |}.

(** The evidence unit of a call, as [_query] and [_aquery] build it. *)
Definition evidence_unit (self : KnowledgeGraphQueryEngine)
  (question generated result prompt_string : string) : NodeWithScore :=
  {| node :=
       {| text := prompt_string;
          text_node_score := Some 1.0%float;
          metadata := evidence_metadata self question generated result |};
     score := None |}.

(** The ids of the start events of a trace, in order. *)
Definition started_ids (trace : list CBEvent) : list nat :=
  flat_map (fun ev => match ev with
                      | EventStart _ _ id => [id]
                      | EventEnd _ _ _ => []
                      end) trace.

(** The world after one and after two calls of the scenario engine. *)
Definition after_first_call : World :=
  snd (entry_point false scenario_engine scenario_question empty_world).

Definition after_second_call : World :=
  snd (entry_point true scenario_engine scenario_question after_first_call).

(** An engine whose completion capability is the mock predictor. *)
Definition mock_engine : KnowledgeGraphQueryEngine :=
  engine_with_predictor
    (mock_capability whitespace_tokenizer count_words
       (fun _ => inr "KEYWORDS: a") (fun _ _ => inr "(a, b, c)")
       {| LLMPredictorMock.max_tokens := 256 |} empty_world)
    scenario_engine.

(** Fixtures for the Anthropic client: it answers "Hello world" at once,
    or in the two chunks "Hello" and " world". *)
Definition hello_client : LLMsAnthropic.Client :=
  {| LLMsAnthropic.create := fun _ _ =>
       inr {| LLMsAnthropic.completion := "Hello world";
              LLMsAnthropic.other_fields := ∅ |};
     LLMsAnthropic.create_stream := fun _ _ =>
       inr [ {| LLMsAnthropic.completion := "Hello";
                LLMsAnthropic.other_fields := ∅ |};
             {| LLMsAnthropic.completion := " world";
                LLMsAnthropic.other_fields := ∅ |} ] |}.

Definition hello_anthropic : LLMsAnthropic.Anthropic :=
  {| LLMsAnthropic._model := "claude-2";
     LLMsAnthropic._temperature := 0.0%float;
     LLMsAnthropic._max_tokens := 512;
     LLMsAnthropic._additional_kwargs := ∅;
     LLMsAnthropic._client := hello_client;
     LLMsAnthropic._aclient := hello_client |}.

(** The messages written one after the other, as a prompt. *)
Definition plain_prompt (messages : list LLMsAnthropic.ChatMessage) : string :=
  join " " (map LLMsAnthropic.content messages).

(** Are all bytes of [s] continuation bytes? *)
Fixpoint all_continuation (s : string) : bool :=
  match s with
  | EmptyString => true
  | String c rest => is_continuation c && all_continuation rest
  end.

(** One character: a byte followed by continuation bytes only. *)
Definition is_character (ch : string) : bool :=
  match ch with
  | EmptyString => false
  | String _ tail => all_continuation tail
  end.

(** The number of bytes of [s] that are not continuation bytes: the number
    of code points of a well-formed text. *)
Fixpoint lead_bytes (s : string) : nat :=
  match s with
  | EmptyString => 0
  | String c rest =>
      (if is_continuation c then 0 else 1) + lead_bytes rest
  end.

(** The prompt 'e-acute, exclamation mark': three bytes, two characters. *)
Definition accented_prompt : string :=
  String (ascii_of_nat 195) (String (ascii_of_nat 169) "!").

(** ** Running the engine *)

(** Unfolds a run down to the outcomes of the collaborators. *)
Ltac run_engine :=
  cbv [entry_point generation completion completion_call synthesis
       synthesis_call _query _aquery generate_query agenerate_query
       bind call lift when ret raise on_event_start on_event_end print_text
       logger_info emit take_id record_call write_stdout write_log
       events next_id calls stdout logged fst snd] in *.

(** Splits on the next collaborator outcome (or on the verbosity flag) that
    the run in the goal waits for. *)
Ltac next_outcome :=
  match goal with
  | |- context [match ?c with inl _ => _ | inr _ => _ end] =>
      destruct c eqn:?; cbv beta iota
  | |- context [if ?b then _ else _] => destruct b; cbv beta iota
  end.

Ltac next_outcome_in H :=
  match type of H with
  | context [match ?c with inl _ => _ | inr _ => _ end] =>
      destruct c eqn:?; cbv beta iota in H; try discriminate H
  | context [if ?b then _ else _] => destruct b; cbv beta iota in H
  end.

Lemma app_assoc_cons {A : Type} (l : list A) (x : A) (r : list A) :
  ((l ++ [x]) ++ r = l ++ x :: r)%list.
Proof. rewrite <- app_assoc. reflexivity. Qed.

Lemma drop_length_app {A : Type} (l r : list A) :
  drop (length l) (l ++ r)%list = r.
Proof. induction l as [|a l IH]; [destruct r|]; auto. Qed.

(** C3: a call of [_query] or [_aquery] in which every stage succeeds
    (generation, backend execution, formatting of the answer prompt and
    synthesis) returns the synthesizer's answer and emits exactly four span
    events: QUERY opens, RETRIEVE opens, RETRIEVE closes, QUERY closes.
    Each close carries the id its open returned, the two ids differ, and no
    span of the call is left open. *)
Theorem successful_call_spans
  (async : bool) (self : KnowledgeGraphQueryEngine) (qb : QueryBundle)
  (w : World) (generated result prompt_string : string) (answer : Response) :
  completion async (llm_predictor (_service_context self))
    (_graph_query_synthesis_prompt self)
    (generation_kwargs self (query_str qb)) = inr generated ->
  query (graph_store self) generated = inr result ->
  format (_graph_response_answer_prompt self)
    (answer_kwargs (query_str qb) generated result) = inr prompt_string ->
  synthesis async (_response_synthesizer self) qb
    [ evidence_unit self (query_str qb) generated result prompt_string ] =
    inr answer ->
  fst (entry_point async self qb w) = inr answer
  /\ emitted w (snd (entry_point async self qb w)) =
       [ query_start (query_str qb) (next_id w);
         retrieve_start generated (S (next_id w));
         retrieve_end result (S (next_id w));
         query_end answer (next_id w) ]
  /\ next_id w <> S (next_id w)
  /\ open_spans (emitted w (snd (entry_point async self qb w))) = []
  /\ events (snd (entry_point async self qb w)) =
     (events w ++ emitted w (snd (entry_point async self qb w)))%list.
Proof.
  intros Hgen Hexec Hfmt Hsyn.
  unfold generation_kwargs, answer_kwargs, evidence_unit, evidence_metadata
    in *.
  destruct async; unfold emitted; run_engine; rewrite Hgen;
    cbv beta iota; destruct (_verbose self); cbv beta iota;
    rewrite Hexec; cbv beta iota; rewrite Hfmt; cbv beta iota;
    rewrite Hsyn; cbv beta iota;
    repeat rewrite app_assoc_cons; rewrite !drop_length_app;
    (split; [reflexivity|]); (split; [reflexivity|]);
    (split; [apply Nat.neq_succ_diag_r|]); (split; [|reflexivity]);
    cbn [open_spans existsb ends CBEventType_eqb retrieve_start query_start
         retrieve_end query_end andb orb];
    rewrite !Nat.eqb_refl; reflexivity.
Qed.

Lemma successful_call_spans_witness :
  (fst (entry_point false scenario_engine scenario_question empty_world) =
     inr {| response := "The actor is Actor1." |}
   /\ emitted empty_world
        (snd (entry_point false scenario_engine scenario_question
                empty_world)) =
        [ query_start (query_str scenario_question) (next_id empty_world);
          retrieve_start scenario_generated (S (next_id empty_world));
          retrieve_end "Actor1" (S (next_id empty_world));
          query_end {| response := "The actor is Actor1." |}
            (next_id empty_world) ]
   /\ next_id empty_world <> S (next_id empty_world)
   /\ open_spans
        (emitted empty_world
           (snd (entry_point false scenario_engine scenario_question
                   empty_world))) = []
   /\ events
        (snd (entry_point false scenario_engine scenario_question
                empty_world)) =
      (events empty_world ++
       emitted empty_world
         (snd (entry_point false scenario_engine scenario_question
                 empty_world)))%list)
  /\ (fst (entry_point true scenario_engine scenario_question empty_world) =
       inr {| response := "The actor is Actor1." |}
     /\ emitted empty_world
          (snd (entry_point true scenario_engine scenario_question
                  empty_world)) =
          [ query_start (query_str scenario_question) (next_id empty_world);
            retrieve_start scenario_generated (S (next_id empty_world));
            retrieve_end "Actor1" (S (next_id empty_world));
            query_end {| response := "The actor is Actor1." |}
              (next_id empty_world) ]
     /\ next_id empty_world <> S (next_id empty_world)
     /\ open_spans
          (emitted empty_world
             (snd (entry_point true scenario_engine scenario_question
                     empty_world))) = []
     /\ events
          (snd (entry_point true scenario_engine scenario_question
                  empty_world)) =
        (events empty_world ++
         emitted empty_world
           (snd (entry_point true scenario_engine scenario_question
                   empty_world)))%list).
Proof.
  split.
  - apply (successful_call_spans false scenario_engine scenario_question
             empty_world scenario_generated "Actor1"
             (filled_answer_template (query_str scenario_question)
                scenario_generated "Actor1")
             {| response := "The actor is Actor1." |});
      [reflexivity|reflexivity|vm_compute; reflexivity|reflexivity].
  - apply (successful_call_spans true scenario_engine scenario_question
             empty_world scenario_generated "Actor1"
             (filled_answer_template (query_str scenario_question)
                scenario_generated "Actor1")
             {| response := "The actor is Actor1." |});
      [reflexivity|reflexivity|vm_compute; reflexivity|reflexivity].
Defined.

(** C1, as the code behaves: when [graph_store.query] raises, the error
    reaches the caller unchanged and the call has emitted the two start
    events only; no end event is emitted, and the QUERY and the RETRIEVE
    span are both still open. *)
Theorem backend_failure_leaves_spans_open
  (async : bool) (self : KnowledgeGraphQueryEngine) (qb : QueryBundle)
  (w : World) (generated : string) (err : Exn) :
  completion async (llm_predictor (_service_context self))
    (_graph_query_synthesis_prompt self)
    (generation_kwargs self (query_str qb)) = inr generated ->
  query (graph_store self) generated = inl err ->
  fst (entry_point async self qb w) = inl err
  /\ emitted w (snd (entry_point async self qb w)) =
       [ query_start (query_str qb) (next_id w);
         retrieve_start generated (S (next_id w)) ]
  /\ end_events (emitted w (snd (entry_point async self qb w))) = []
  /\ open_spans (emitted w (snd (entry_point async self qb w))) =
       [ (QUERY, next_id w); (RETRIEVE, S (next_id w)) ].
Proof.
  intros Hgen Hexec. unfold generation_kwargs in Hgen.
  destruct async; unfold emitted; run_engine; rewrite Hgen; cbv beta iota;
    destruct (_verbose self); cbv beta iota; rewrite Hexec; cbv beta iota;
    repeat rewrite app_assoc_cons; rewrite drop_length_app;
    repeat split; reflexivity.
Qed.

Lemma backend_failure_leaves_spans_open_witness :
  fst (entry_point false (scenario_engine_with failing_store)
         scenario_question empty_world) =
  inl (RuntimeError "SemanticError: no such tag")
  /\ emitted empty_world
       (snd (entry_point false (scenario_engine_with failing_store)
               scenario_question empty_world)) =
       [ query_start (query_str scenario_question) 0;
         retrieve_start scenario_generated 1 ]
  /\ end_events
       (emitted empty_world
          (snd (entry_point false (scenario_engine_with failing_store)
                  scenario_question empty_world))) = []
  /\ open_spans
       (emitted empty_world
          (snd (entry_point false (scenario_engine_with failing_store)
                  scenario_question empty_world))) =
       [ (QUERY, 0); (RETRIEVE, 1) ].
Proof.
  apply (backend_failure_leaves_spans_open false
           (scenario_engine_with failing_store) scenario_question empty_world
           scenario_generated (RuntimeError "SemanticError: no such tag"));
    reflexivity.
Defined.

(** C1 as stated fails: with a backend whose [query] raises, both entry
    points hand the error to the caller while the trace holds no end event
    and both spans of the call are open. *)
Lemma backend_failure_spans_not_closed :
  fst (_query (scenario_engine_with failing_store) scenario_question
         empty_world) = inl (RuntimeError "SemanticError: no such tag")
  /\ end_events
       (events (snd (_query (scenario_engine_with failing_store)
                       scenario_question empty_world))) = []
  /\ open_spans
       (events (snd (_query (scenario_engine_with failing_store)
                       scenario_question empty_world))) =
     [ (QUERY, 0); (RETRIEVE, 1) ]
  /\ fst (_aquery (scenario_engine_with failing_store) scenario_question
            empty_world) = inl (RuntimeError "SemanticError: no such tag")
  /\ end_events
       (events (snd (_aquery (scenario_engine_with failing_store)
                       scenario_question empty_world))) = []
  /\ open_spans
       (events (snd (_aquery (scenario_engine_with failing_store)
                       scenario_question empty_world))) =
     [ (QUERY, 0); (RETRIEVE, 1) ].
Proof. vm_compute. repeat split; reflexivity. Qed.

(** C2: when the asynchronous twins of the fixtures answer as the
    synchronous ones do, [_aquery] returns what [_query] returns (the same
    answer or the same error) and leaves the same event trace, id supply,
    output and log; the calls it makes are the asynchronous twins of the
    calls of [_query], with the same arguments. *)
Theorem async_mirrors_sync
  (self : KnowledgeGraphQueryEngine) (qb : QueryBundle) (w : World) :
  (forall p kw,
     apredict (llm_predictor (_service_context self)) p kw =
     predict (llm_predictor (_service_context self)) p kw) ->
  (forall q ns,
     asynthesize (_response_synthesizer self) q ns =
     synthesize (_response_synthesizer self) q ns) ->
  fst (_aquery self qb w) = fst (_query self qb w)
  /\ events (snd (_aquery self qb w)) = events (snd (_query self qb w))
  /\ next_id (snd (_aquery self qb w)) = next_id (snd (_query self qb w))
  /\ stdout (snd (_aquery self qb w)) = stdout (snd (_query self qb w))
  /\ logged (snd (_aquery self qb w)) = logged (snd (_query self qb w))
  /\ map sync_twin (made_calls w (snd (_aquery self qb w))) =
     made_calls w (snd (_query self qb w)).
Proof.
  intros Hpredict Hsynth.
  unfold made_calls. run_engine. rewrite Hpredict.
  destruct (_verbose self); cbv beta iota;
    (destruct (predict _ _ _) as [e1|generated]; cbv beta iota;
     [|destruct (query _ _) as [e2|result]; cbv beta iota;
       [|destruct (format _ _) as [e3|prompt_string]; cbv beta iota;
         [|rewrite Hsynth;
           destruct (synthesize _ _ _) as [e4|answer]; cbv beta iota]]]);
    repeat rewrite app_assoc_cons; rewrite ?drop_length_app;
    repeat split; reflexivity.
Qed.

Lemma async_mirrors_sync_witness :
  fst (_aquery scenario_engine scenario_question empty_world) =
  fst (_query scenario_engine scenario_question empty_world)
  /\ events (snd (_aquery scenario_engine scenario_question empty_world)) =
     events (snd (_query scenario_engine scenario_question empty_world))
  /\ next_id (snd (_aquery scenario_engine scenario_question empty_world)) =
     next_id (snd (_query scenario_engine scenario_question empty_world))
  /\ stdout (snd (_aquery scenario_engine scenario_question empty_world)) =
     stdout (snd (_query scenario_engine scenario_question empty_world))
  /\ logged (snd (_aquery scenario_engine scenario_question empty_world)) =
     logged (snd (_query scenario_engine scenario_question empty_world))
  /\ map sync_twin
       (made_calls empty_world
          (snd (_aquery scenario_engine scenario_question empty_world))) =
     made_calls empty_world
       (snd (_query scenario_engine scenario_question empty_world)).
Proof.
  apply (async_mirrors_sync scenario_engine scenario_question empty_world);
    intros; reflexivity.
Defined.

Lemma format_answer_template (question generated result : string) :
  format DEFAULT_KG_RESPONSE_ANSWER_PROMPT
    (answer_kwargs question generated result) =
  inr (filled_answer_template question generated result).
Proof. vm_compute. reflexivity. Qed.

Lemma format_nebula_template (self : KnowledgeGraphQueryEngine)
  (question : string) :
  format DEFAULT_NEBULAGRAPH_NL2CYPHER_PROMPT
    (generation_kwargs self question) =
  inr (filled_nebula_template (_graph_schema self) question).
Proof. vm_compute. reflexivity. Qed.

Lemma evidence_metadata_size (self : KnowledgeGraphQueryEngine)
  (question generated result : string) :
  size (evidence_metadata self question generated result) = 4.
Proof.
  unfold evidence_metadata.
  rewrite !map_size_insert_None, map_size_empty; [reflexivity|..];
    repeat (rewrite lookup_insert_ne by discriminate);
    apply lookup_empty.
Qed.

(** What a successful call does, stage by stage: the outcomes of the three
    collaborators, the calls made and the evidence unit handed over. *)
Lemma successful_call_stages
  (async : bool) (self : KnowledgeGraphQueryEngine) (qb : QueryBundle)
  (w w' : World) (answer : Response) :
  entry_point async self qb w = (inr answer, w') ->
  exists (generated result prompt_string : string),
    completion async (llm_predictor (_service_context self))
      (_graph_query_synthesis_prompt self)
      (generation_kwargs self (query_str qb)) = inr generated
    /\ query (graph_store self) generated = inr result
    /\ format (_graph_response_answer_prompt self)
         (answer_kwargs (query_str qb) generated result) = inr prompt_string
    /\ made_calls w w' =
         [ completion_call async (_graph_query_synthesis_prompt self)
             (generation_kwargs self (query_str qb));
           graph_store_query_call generated;
           synthesis_call async qb
             [ {| node :=
                    {| text := prompt_string;
                       text_node_score := Some 1.0%float;
                       metadata :=
                         evidence_metadata self (query_str qb) generated
                           result |};
                  score := None |} ] ].
Proof.
  intros Hrun.
  unfold made_calls, generation_kwargs, answer_kwargs, evidence_metadata.
  destruct async; run_engine; repeat next_outcome_in Hrun;
    inversion Hrun; subst; clear Hrun;
    repeat rewrite app_assoc_cons; rewrite drop_length_app;
    do 3 eexists;
    (split; [reflexivity|]); (split; [eassumption|]);
    (split; [eassumption|]); reflexivity.
Qed.

(** C4, as the code behaves: in every successful call the evidence unit
    handed to the synthesizer is a [NodeWithScore] built without a [score]
    argument; the value 1.0 is passed to the [TextNode] constructor. *)
Theorem evidence_unit_score_not_set
  (async : bool) (self : KnowledgeGraphQueryEngine) (qb : QueryBundle)
  (w w' : World) (answer : Response) :
  entry_point async self qb w = (inr answer, w') ->
  exists (unit : NodeWithScore),
    last (made_calls w w') = Some (synthesis_call async qb [unit])
    /\ score unit = None
    /\ score unit <> Some 1.0%float
    /\ text_node_score (node unit) = Some 1.0%float.
Proof.
  intros Hrun.
  destruct (successful_call_stages async self qb w w' answer Hrun)
    as (generated & result & prompt_string & _ & _ & _ & Hcalls).
  rewrite Hcalls. eexists. split; [reflexivity|].
  split; [reflexivity|]. split; [discriminate|reflexivity].
Qed.

Lemma evidence_unit_score_not_set_witness :
  exists (unit : NodeWithScore),
    last (made_calls empty_world
            (snd (entry_point false scenario_engine scenario_question
                    empty_world))) =
    Some (synthesis_call false scenario_question [unit])
    /\ score unit = None
    /\ score unit <> Some 1.0%float
    /\ text_node_score (node unit) = Some 1.0%float.
Proof.
  apply (evidence_unit_score_not_set false scenario_engine scenario_question
           empty_world
           (snd (entry_point false scenario_engine scenario_question
                   empty_world))
           {| response := "The actor is Actor1." |}).
  vm_compute. reflexivity.
Defined.

(** C6: in every call of [_query] or [_aquery] in which generation,
    backend execution and the formatting of the answer prompt succeed,
    whatever the synthesizer then does, the evidence unit handed to the
    synthesizer has, as text, the answer template formatted with the
    original question, the generated query and the backend result (for the
    default template: that template with its three slots replaced), and, as
    metadata, exactly the four entries query_str, graph_store_query,
    graph_store_response and graph_schema. *)
Theorem evidence_assembly
  (async : bool) (self : KnowledgeGraphQueryEngine) (qb : QueryBundle)
  (w : World) (generated result prompt_string : string) :
  completion async (llm_predictor (_service_context self))
    (_graph_query_synthesis_prompt self)
    (generation_kwargs self (query_str qb)) = inr generated ->
  query (graph_store self) generated = inr result ->
  format (_graph_response_answer_prompt self)
    (answer_kwargs (query_str qb) generated result) = inr prompt_string ->
  exists (unit : NodeWithScore),
    made_calls w (snd (entry_point async self qb w)) =
      [ completion_call async (_graph_query_synthesis_prompt self)
          (generation_kwargs self (query_str qb));
        graph_store_query_call generated;
        synthesis_call async qb [unit] ]
    /\ format (_graph_response_answer_prompt self)
         (answer_kwargs (query_str qb) generated result) =
       inr (text (node unit))
    /\ format DEFAULT_KG_RESPONSE_ANSWER_PROMPT
         (answer_kwargs (query_str qb) generated result) =
       inr (filled_answer_template (query_str qb) generated result)
    /\ metadata (node unit) =
       evidence_metadata self (query_str qb) generated result
    /\ size (metadata (node unit)) = 4.
Proof.
  intros Hgen Hexec Hfmt.
  exists (evidence_unit self (query_str qb) generated result prompt_string).
  split; [|split; [exact Hfmt|split; [apply format_answer_template|
                                      split; [reflexivity|
                                              apply evidence_metadata_size]]]].
  unfold generation_kwargs, answer_kwargs, evidence_unit, evidence_metadata
    in *.
  destruct async; unfold made_calls; run_engine; rewrite Hgen;
    cbv beta iota; destruct (_verbose self); cbv beta iota;
    rewrite Hexec; cbv beta iota; rewrite Hfmt; cbv beta iota;
    next_outcome;
    repeat rewrite app_assoc_cons; rewrite !drop_length_app; reflexivity.
Qed.

Lemma evidence_assembly_witness :
  (exists (unit : NodeWithScore),
     made_calls empty_world
       (snd (entry_point false scenario_engine scenario_question
               empty_world)) =
       [ completion_call false (_graph_query_synthesis_prompt scenario_engine)
           (generation_kwargs scenario_engine (query_str scenario_question));
         graph_store_query_call scenario_generated;
         synthesis_call false scenario_question [unit] ]
     /\ format (_graph_response_answer_prompt scenario_engine)
          (answer_kwargs (query_str scenario_question) scenario_generated
             "Actor1") = inr (text (node unit))
     /\ format DEFAULT_KG_RESPONSE_ANSWER_PROMPT
          (answer_kwargs (query_str scenario_question) scenario_generated
             "Actor1") =
        inr (filled_answer_template (query_str scenario_question)
               scenario_generated "Actor1")
     /\ metadata (node unit) =
        evidence_metadata scenario_engine (query_str scenario_question)
          scenario_generated "Actor1"
     /\ size (metadata (node unit)) = 4)
  /\ (exists (unit : NodeWithScore),
       made_calls empty_world
         (snd (entry_point true
                 (engine_with_synthesizer failing_synthesizer scenario_engine)
                 scenario_question empty_world)) =
         [ completion_call true
             (_graph_query_synthesis_prompt
                (engine_with_synthesizer failing_synthesizer scenario_engine))
             (generation_kwargs
                (engine_with_synthesizer failing_synthesizer scenario_engine)
                (query_str scenario_question));
           graph_store_query_call scenario_generated;
           synthesis_call true scenario_question [unit] ]
       /\ format
            (_graph_response_answer_prompt
               (engine_with_synthesizer failing_synthesizer scenario_engine))
            (answer_kwargs (query_str scenario_question) scenario_generated
               "Actor1") = inr (text (node unit))
       /\ format DEFAULT_KG_RESPONSE_ANSWER_PROMPT
            (answer_kwargs (query_str scenario_question) scenario_generated
               "Actor1") =
          inr (filled_answer_template (query_str scenario_question)
                 scenario_generated "Actor1")
       /\ metadata (node unit) =
          evidence_metadata
            (engine_with_synthesizer failing_synthesizer scenario_engine)
            (query_str scenario_question) scenario_generated "Actor1"
       /\ size (metadata (node unit)) = 4).
Proof.
  split.
  - apply (evidence_assembly false scenario_engine scenario_question
             empty_world scenario_generated "Actor1"
             (filled_answer_template (query_str scenario_question)
                scenario_generated "Actor1"));
      [reflexivity|reflexivity|vm_compute; reflexivity].
  - apply (evidence_assembly true
             (engine_with_synthesizer failing_synthesizer scenario_engine)
             scenario_question empty_world scenario_generated "Actor1"
             (filled_answer_template (query_str scenario_question)
                scenario_generated "Actor1"));
      [reflexivity|reflexivity|vm_compute; reflexivity].
Defined.

(** C7: [generate_query] (and [agenerate_query]) makes one call to the
    completion capability, with the dialect template and the substitutions
    query_str (the question) and schema (the cached schema), and returns
    the outcome of that call as it is.  The default dialect template has
    exactly these two slots.  In [_query] and [_aquery] a generated query
    goes unchanged into the RETRIEVE start event and into
    [graph_store.query]; a failed generation is raised as it is. *)
Theorem generated_query_unmodified
  (async : bool) (self : KnowledgeGraphQueryEngine) (question : string)
  (w : World) :
  generation async self question w =
    (completion async (llm_predictor (_service_context self))
       (_graph_query_synthesis_prompt self)
       (generation_kwargs self question),
     record_call
       (completion_call async (_graph_query_synthesis_prompt self)
          (generation_kwargs self question)) w)
  /\ format DEFAULT_NEBULAGRAPH_NL2CYPHER_PROMPT
       (generation_kwargs self question) =
     inr (filled_nebula_template (_graph_schema self) question)
  /\ match
       completion async (llm_predictor (_service_context self))
         (_graph_query_synthesis_prompt self)
         (generation_kwargs self question)
     with
     | inr generated =>
         exists (more_calls : list Call) (more_events : list CBEvent),
           made_calls w
             (snd (entry_point async self {| query_str := question |} w)) =
             completion_call async (_graph_query_synthesis_prompt self)
               (generation_kwargs self question)
             :: graph_store_query_call generated :: more_calls
           /\ emitted w
                (snd (entry_point async self {| query_str := question |} w)) =
              query_start question (next_id w)
              :: retrieve_start generated (S (next_id w)) :: more_events
     | inl err =>
         fst (entry_point async self {| query_str := question |} w) = inl err
     end.
Proof.
  split; [|split; [apply format_nebula_template|]].
  - unfold generation_kwargs.
    destruct async; run_engine;
      match goal with
      | |- context [match ?c with inl _ => _ | inr _ => _ end] => destruct c
      end; reflexivity.
  - unfold made_calls, emitted, generation_kwargs, query_start, retrieve_start.
    destruct async; run_engine; cbv [query_str];
      destruct (_verbose self); cbv beta iota;
      (match goal with
       | |- context [match ?c with inl _ => _ | inr _ => _ end] =>
           destruct c; cbv beta iota; [reflexivity|]
       end;
       repeat next_outcome;
       repeat rewrite app_assoc_cons; rewrite !drop_length_app;
       do 2 eexists; split; reflexivity).
Qed.

(** ** Construction *)

Lemma default_prompt_map_lookup (kind : GraphStoreType) :
  DEFAULT_NL2GRAPH_PROMPT_MAP !! kind =
  match kind with
  | NEBULA => Some DEFAULT_NEBULAGRAPH_NL2CYPHER_PROMPT
  | OtherGraphStoreType _ => None
  end.
Proof.
  unfold DEFAULT_NL2GRAPH_PROMPT_MAP. destruct kind.
  - apply lookup_singleton_eq.
  - apply lookup_singleton_ne. discriminate.
Qed.

Ltac run_init :=
  cbv [__init__ assert_not_None bind call lift ret raise record_call
       events next_id calls stdout logged fst snd] in *.



(** With the registered [SimpleGraphStore] the constructor fails on the
    schema fetch, also when a synthesis prompt is passed. *)
Lemma simple_store_rejected_with_prompt :
  scenario_registry !! __class__ simple_store =
    Some (OtherGraphStoreType "SIMPLE")
  /\ DEFAULT_NL2GRAPH_PROMPT_MAP !! OtherGraphStoreType "SIMPLE" = None
  /\ fst (__init__ scenario_registry scenario_service_context
            (fun _ => scenario_synthesizer)
            None (Some {| storage_graph_store := Some simple_store |})
            (Some custom_prompt) None false false None empty_world) =
     inl NotImplementedError.
Proof.
  split; [vm_compute; reflexivity|].
  split; [apply default_prompt_map_lookup|].
  vm_compute. reflexivity.
Qed.


(** Whatever the outcome of a call, it makes no [get_schema] call, the
    completion call receives the engine's schema, the evidence unit carries
    it, and what [get_schema] would answer now is irrelevant. *)
Lemma calls_use_cached_schema
  (async : bool) (self : KnowledgeGraphQueryEngine) (qb : QueryBundle)
  (w : World) :
  List.filter is_get_schema_call
    (made_calls w (snd (entry_point async self qb w))) = []
  /\ (forall p kw,
        In (completion_call async p kw)
          (made_calls w (snd (entry_point async self qb w))) ->
        kw !! "schema" = Some (VStr (_graph_schema self)))
  /\ (forall q unit,
        In (synthesis_call async q [unit])
          (made_calls w (snd (entry_point async self qb w))) ->
        metadata (node unit) !! "graph_schema" = Some (_graph_schema self))
  /\ (forall g,
        entry_point async (with_backend_schema g self) qb w =
        entry_point async self qb w).
Proof.
  assert (Hkw : forall q : string,
             (<["query_str" := VStr q]>
                (<["schema" := VStr (_graph_schema self)]> (∅ : Dict)))
               !! "schema" = Some (VStr (_graph_schema self))).
  { intros q. rewrite lookup_insert_ne by discriminate.
    apply lookup_insert_eq. }
  assert (Hmeta : forall q g r : string,
             (<["query_str" := q]>
                (<["graph_store_query" := g]>
                   (<["graph_store_response" := r]>
                      (<["graph_schema" := _graph_schema self]>
                         (∅ : gmap string string)))))
               !! "graph_schema" = Some (_graph_schema self)).
  { intros q g r. rewrite !lookup_insert_ne by discriminate.
    apply lookup_insert_eq. }
  split; [|split; [|split]].
  - unfold made_calls.
    destruct async; run_engine; repeat next_outcome;
      repeat rewrite app_assoc_cons; rewrite !drop_length_app; reflexivity.
  - intros p kw. unfold made_calls.
    destruct async; run_engine; repeat next_outcome;
      repeat rewrite app_assoc_cons; rewrite !drop_length_app;
      cbn [In]; intros Hin;
      repeat match goal with
             | H : _ \/ _ |- _ => destruct H as [H|H]
             | H : False |- _ => destruct H
             | H : _ = _ :> Call |- _ => inversion H; subst; clear H
             end; apply Hkw.
  - intros q unit. unfold made_calls.
    destruct async; run_engine; repeat next_outcome;
      repeat rewrite app_assoc_cons; rewrite !drop_length_app;
      cbn [In]; intros Hin;
      repeat match goal with
             | H : _ \/ _ |- _ => destruct H as [H|H]
             | H : False |- _ => destruct H
             | H : _ = _ :> Call |- _ => inversion H; subst; clear H
             end; apply Hmeta.
  - intros g. destruct async; reflexivity.
Qed.

(** C8: construction fetches the schema with one [get_schema] call, to
    which the refresh flag is passed, and keeps the answer as the engine's
    schema.  No later call of [_query] or [_aquery] calls [get_schema]; the
    completion call and the evidence unit's metadata carry the schema kept
    at construction, whatever the backend would answer by then. *)
Theorem schema_fetched_once_at_construction
  (registry : gmap string GraphStoreType)
  (default_service_context : ServiceContext)
  (default_synthesizer : ServiceContext -> BaseSynthesizer)
  (service_context : option ServiceContext)
  (storage_context : option StorageContext)
  (graph_query_synthesis_prompt graph_response_answer_prompt : option Prompt)
  (refresh_schema verbose : bool)
  (response_synthesizer : option BaseSynthesizer) (w w' : World)
  (self : KnowledgeGraphQueryEngine) :
  __init__ registry default_service_context default_synthesizer
    service_context storage_context graph_query_synthesis_prompt
    graph_response_answer_prompt refresh_schema verbose
    response_synthesizer w = (inr self, w') ->
  (exists context,
     storage_context = Some context
     /\ storage_graph_store context = Some (graph_store self)
     /\ get_schema (graph_store self) refresh_schema =
        inr (_graph_schema self))
  /\ made_calls w w' = [get_schema_call refresh_schema]
  /\ forall (async : bool) (qb : QueryBundle) (w1 : World),
       List.filter is_get_schema_call
         (made_calls w1 (snd (entry_point async self qb w1))) = []
       /\ (forall p kw,
             In (completion_call async p kw)
               (made_calls w1 (snd (entry_point async self qb w1))) ->
             kw !! "schema" = Some (VStr (_graph_schema self)))
       /\ (forall q unit,
             In (synthesis_call async q [unit])
               (made_calls w1 (snd (entry_point async self qb w1))) ->
             metadata (node unit) !! "graph_schema" =
             Some (_graph_schema self))
       /\ (forall g,
             entry_point async (with_backend_schema g self) qb w1 =
             entry_point async self qb w1).
Proof.
  intros Hinit.
  split; [|split; [|intros; apply calls_use_cached_schema]].
  - run_init.
    destruct storage_context as [context|]; [|discriminate].
    cbv beta iota in Hinit.
    destruct (storage_graph_store context) as [store|] eqn:Hstore;
      [|discriminate].
    cbv beta iota in Hinit.
    destruct (registry !! __class__ store) as [kind|]; [|discriminate].
    cbv beta iota in Hinit.
    destruct (get_schema store refresh_schema) as [err|schema] eqn:Hschema;
      [discriminate|].
    cbv beta iota in Hinit.
    destruct graph_query_synthesis_prompt as [prompt|];
      [|destruct (DEFAULT_NL2GRAPH_PROMPT_MAP !! kind); [|discriminate]];
      cbv beta iota in Hinit; inversion Hinit; subst; clear Hinit;
      cbv [graph_store _graph_schema];
      (exists context; split; [reflexivity|]; split; assumption).
  - unfold made_calls. run_init.
    destruct storage_context as [context|]; [|discriminate].
    cbv beta iota in Hinit.
    destruct (storage_graph_store context) as [store|]; [|discriminate].
    cbv beta iota in Hinit.
    destruct (registry !! __class__ store) as [kind|]; [|discriminate].
    cbv beta iota in Hinit.
    destruct (get_schema store refresh_schema) as [err|schema];
      [discriminate|].
    cbv beta iota in Hinit.
    destruct graph_query_synthesis_prompt as [prompt|];
      [|destruct (DEFAULT_NL2GRAPH_PROMPT_MAP !! kind); [|discriminate]];
      cbv beta iota in Hinit; inversion Hinit; subst; clear Hinit;
      apply drop_length_app.
Qed.

Lemma scenario_engine_constructed :
  __init__ scenario_registry scenario_service_context
    (fun _ => scenario_synthesizer)
    None (Some {| storage_graph_store := Some scenario_store |})
    None None true false None empty_world =
  (inr scenario_engine, record_call (get_schema_call true) empty_world).
Proof. vm_compute. reflexivity. Qed.

Lemma schema_fetched_once_at_construction_witness :
  (exists context,
     Some {| storage_graph_store := Some scenario_store |} = Some context
     /\ storage_graph_store context = Some (graph_store scenario_engine)
     /\ get_schema (graph_store scenario_engine) true =
        inr (_graph_schema scenario_engine))
  /\ made_calls empty_world (record_call (get_schema_call true) empty_world) =
     [get_schema_call true]
  /\ forall (async : bool) (qb : QueryBundle) (w1 : World),
       List.filter is_get_schema_call
         (made_calls w1 (snd (entry_point async scenario_engine qb w1))) = []
       /\ (forall p kw,
             In (completion_call async p kw)
               (made_calls w1 (snd (entry_point async scenario_engine qb w1)))
             -> kw !! "schema" = Some (VStr (_graph_schema scenario_engine)))
       /\ (forall q unit,
             In (synthesis_call async q [unit])
               (made_calls w1 (snd (entry_point async scenario_engine qb w1)))
             -> metadata (node unit) !! "graph_schema" =
                Some (_graph_schema scenario_engine))
       /\ (forall g,
             entry_point async (with_backend_schema g scenario_engine) qb w1 =
             entry_point async scenario_engine qb w1).
Proof.
  apply (schema_fetched_once_at_construction scenario_registry
           scenario_service_context (fun _ => scenario_synthesizer)
           None (Some {| storage_graph_store := Some scenario_store |})
           None None true false None empty_world
           (record_call (get_schema_call true) empty_world) scenario_engine).
  vm_compute. reflexivity.
Defined.

(** ** The mock predictor and the mock LLM *)

(** C9, as the code behaves: for a prompt whose type has no branch in
    [predict], the call never returns a string.  It raises
    [ValueError "Invalid prompt type."] when the prompt formats with the
    given arguments, and the error of the formatting, which comes first,
    otherwise.  [apredict] is [predict], for every prompt, arguments and
    world. *)
Theorem unhandled_prompt_type_raises
  (tokenizer : PyVal -> Exn + list string) (count_tokens : string -> Z)
  (keywords_response : PyVal -> Exn + string)
  (triplets_response : PyVal -> PyVal -> Exn + string)
  (self : LLMPredictorMock.MockLLMPredictor)
  (prompt : Prompt) (prompt_args : Dict) (w : World) :
  LLMPredictorMock.handled (prompt_type prompt) = false ->
  fst (LLMPredictorMock.predict tokenizer count_tokens keywords_response
         triplets_response self prompt prompt_args w) =
    match format prompt prompt_args with
    | inl err => inl err
    | inr _ => inl (ValueError "Invalid prompt type.")
    end
  /\ (exists err,
        fst (LLMPredictorMock.predict tokenizer count_tokens
               keywords_response triplets_response self prompt prompt_args
               w) = inl err)
  /\ (forall prompt' prompt_args' w',
        LLMPredictorMock.apredict tokenizer count_tokens keywords_response
          triplets_response self prompt' prompt_args' w' =
        LLMPredictorMock.predict tokenizer count_tokens keywords_response
          triplets_response self prompt' prompt_args' w').
Proof.
  intros Hunhandled.
  assert (Hrun :
    fst (LLMPredictorMock.predict tokenizer count_tokens keywords_response
           triplets_response self prompt prompt_args w) =
    match format prompt prompt_args with
    | inl err => inl err
    | inr _ => inl (ValueError "Invalid prompt type.")
    end).
  { cbv [LLMPredictorMock.predict LLMPredictorMock._log_start bind lift ret
         raise on_event_start fst].
    destruct (format prompt prompt_args) as [err|formatted]; [reflexivity|].
    destruct (prompt_type prompt); try discriminate Hunhandled; reflexivity. }
  split; [exact Hrun|]. split; [|reflexivity].
  rewrite Hrun. destruct (format prompt prompt_args); eexists; reflexivity.
Qed.

Lemma unhandled_prompt_type_raises_witness :
  fst (scenario_mock_predict DEFAULT_NEBULAGRAPH_NL2CYPHER_PROMPT
         (generation_kwargs scenario_engine "Who?") empty_world) =
    match
      format DEFAULT_NEBULAGRAPH_NL2CYPHER_PROMPT
        (generation_kwargs scenario_engine "Who?")
    with
    | inl err => inl err
    | inr _ => inl (ValueError "Invalid prompt type.")
    end
  /\ (exists err,
        fst (scenario_mock_predict DEFAULT_NEBULAGRAPH_NL2CYPHER_PROMPT
               (generation_kwargs scenario_engine "Who?") empty_world) =
        inl err)
  /\ (forall prompt' prompt_args' w',
        LLMPredictorMock.apredict whitespace_tokenizer count_words
          (fun _ => inr "KEYWORDS: a") (fun _ _ => inr "(a, b, c)")
          {| LLMPredictorMock.max_tokens := 256 |} prompt' prompt_args' w' =
        LLMPredictorMock.predict whitespace_tokenizer count_words
          (fun _ => inr "KEYWORDS: a") (fun _ _ => inr "(a, b, c)")
          {| LLMPredictorMock.max_tokens := 256 |} prompt' prompt_args' w').
Proof.
  apply (unhandled_prompt_type_raises whitespace_tokenizer count_words
           (fun _ => inr "KEYWORDS: a") (fun _ _ => inr "(a, b, c)")
           {| LLMPredictorMock.max_tokens := 256 |}
           DEFAULT_NEBULAGRAPH_NL2CYPHER_PROMPT
           (generation_kwargs scenario_engine "Who?") empty_world).
  reflexivity.
Defined.

(** C9 as stated fails: a prompt of an unhandled type whose slot has no
    argument makes [predict] raise the [KeyError] of the formatting, not a
    [ValueError]. *)
Lemma unhandled_prompt_type_key_error :
  LLMPredictorMock.handled
    (prompt_type (Prompt_init "{schema}" TEXT_TO_GRAPH_QUERY)) = false
  /\ fst (scenario_mock_predict (Prompt_init "{schema}" TEXT_TO_GRAPH_QUERY)
            ∅ empty_world) = inl (KeyError "schema")
  /\ KeyError "schema" <> ValueError "Invalid prompt type.".
Proof.
  split; [reflexivity|]. split; [vm_compute; reflexivity|discriminate].
Qed.

Lemma map_const_seq {A : Type} (x : A) (len start : nat) :
  map (fun _ : Z => x) (map Z.of_nat (seq start len)) = replicate len x.
Proof.
  revert start. induction len as [|len IH]; intros start; [reflexivity|].
  cbn [seq map replicate]. f_equal. apply IH.
Qed.

Lemma words_join_text (n : nat) :
  String.words (join " " (replicate n "text")) = replicate n "text".
Proof.
  destruct n as [|n]; [reflexivity|].
  induction n as [|n IH]; [reflexivity|].
  change (replicate (S (S n)) "text")
    with ("text" :: replicate (S n) "text") in *.
  change (join " " ("text" :: replicate (S n) "text"))
    with ("text " +:+ join " " (replicate (S n) "text")).
  change (String.words ("text " +:+ join " " (replicate (S n) "text")))
    with ("text" :: String.words (join " " (replicate (S n) "text"))).
  rewrite IH. reflexivity.
Qed.

(** C10, as the code behaves: [complete] returns the prompt itself when
    [max_tokens] is [None] or 0; for any other [max_tokens] it returns
    [max_tokens] repetitions of the token "text" joined by single spaces
    (none, the empty string, when [max_tokens] is negative).  The call is a
    total function of the engine and the prompt. *)
Theorem complete_text (self : LLMsMock.MockLLM) (prompt : string) :
  match LLMsMock.max_tokens self with
  | None | Some 0%Z =>
      LLMsMock.text (LLMsMock.complete self prompt) = prompt
  | Some n =>
      LLMsMock.text (LLMsMock.complete self prompt) =
        join " " (replicate (Z.to_nat n) "text")
      /\ String.words (LLMsMock.text (LLMsMock.complete self prompt)) =
         replicate (Z.to_nat n) "text"
  end.
Proof.
  unfold LLMsMock.complete, LLMsMock._generate_text, range.
  destruct (LLMsMock.max_tokens self) as [[|n|n]|]; cbn [LLMsMock.text];
    try reflexivity;
    cbn [LLMsMock.truthy Z.eqb negb]; rewrite map_const_seq;
    (split; [reflexivity|apply words_join_text]).
Qed.

(** C10 as stated fails: with [max_tokens = 0] the claim asks for zero
    repetitions, the empty string, and [complete] returns the prompt. *)
Lemma complete_zero_max_tokens_returns_prompt :
  LLMsMock.text (LLMsMock.complete {| LLMsMock.max_tokens := Some 0%Z |} "hello")
  = "hello"
  /\ join " " (replicate (Z.to_nat 0) "text") = ""
  /\ "hello" <> "".
Proof. split; [reflexivity|]. split; [reflexivity|discriminate]. Qed.

(** * Further properties of the engine *)

(** X1: when the completion call of the generation stage raises, the error
    reaches the caller unchanged; the call has emitted the QUERY start
    event only, so the QUERY span stays open and no RETRIEVE span exists;
    the completion call is the only call made (the graph store and the
    synthesizer are never called); nothing is printed or logged. *)
Theorem generation_failure_stops_call
  (async : bool) (self : KnowledgeGraphQueryEngine) (qb : QueryBundle)
  (w : World) (err : Exn) :
  completion async (llm_predictor (_service_context self))
    (_graph_query_synthesis_prompt self)
    (generation_kwargs self (query_str qb)) = inl err ->
  fst (entry_point async self qb w) = inl err
  /\ emitted w (snd (entry_point async self qb w)) =
       [ query_start (query_str qb) (next_id w) ]
  /\ open_spans (emitted w (snd (entry_point async self qb w))) =
       [ (QUERY, next_id w) ]
  /\ made_calls w (snd (entry_point async self qb w)) =
       [ completion_call async (_graph_query_synthesis_prompt self)
           (generation_kwargs self (query_str qb)) ]
  /\ stdout (snd (entry_point async self qb w)) = stdout w
  /\ logged (snd (entry_point async self qb w)) = logged w.
Proof.
  intros Hgen. unfold generation_kwargs in *.
  destruct async; unfold emitted, made_calls; run_engine; rewrite Hgen;
    cbv beta iota;
    repeat rewrite app_assoc_cons; rewrite !drop_length_app;
    repeat split; reflexivity.
Qed.

Lemma generation_failure_stops_call_witness :
  fst (entry_point false (engine_with_predictor failing_predictor
                            scenario_engine) scenario_question empty_world) =
  inl (RuntimeError "rate limit")
  /\ emitted empty_world
       (snd (entry_point false (engine_with_predictor failing_predictor
                                  scenario_engine) scenario_question
               empty_world)) =
       [ query_start (query_str scenario_question) (next_id empty_world) ]
  /\ open_spans
       (emitted empty_world
          (snd (entry_point false (engine_with_predictor failing_predictor
                                     scenario_engine) scenario_question
                  empty_world))) =
       [ (QUERY, next_id empty_world) ]
  /\ made_calls empty_world
       (snd (entry_point false (engine_with_predictor failing_predictor
                                  scenario_engine) scenario_question
               empty_world)) =
       [ completion_call false
           (_graph_query_synthesis_prompt
              (engine_with_predictor failing_predictor scenario_engine))
           (generation_kwargs
              (engine_with_predictor failing_predictor scenario_engine)
              (query_str scenario_question)) ]
  /\ stdout
       (snd (entry_point false (engine_with_predictor failing_predictor
                                  scenario_engine) scenario_question
               empty_world)) = stdout empty_world
  /\ logged
       (snd (entry_point false (engine_with_predictor failing_predictor
                                  scenario_engine) scenario_question
               empty_world)) = logged empty_world.
Proof.
  apply (generation_failure_stops_call false
           (engine_with_predictor failing_predictor scenario_engine)
           scenario_question empty_world (RuntimeError "rate limit")).
  reflexivity.
Defined.

(** X2: when the answer template cannot be formatted (a slot without
    substitution), the error of the formatting reaches the caller after the
    RETRIEVE span was closed: the call has emitted QUERY start, RETRIEVE
    start and RETRIEVE end, the QUERY span stays open, and the synthesizer
    is never called. *)
Theorem answer_format_failure
  (async : bool) (self : KnowledgeGraphQueryEngine) (qb : QueryBundle)
  (w : World) (generated result : string) (err : Exn) :
  completion async (llm_predictor (_service_context self))
    (_graph_query_synthesis_prompt self)
    (generation_kwargs self (query_str qb)) = inr generated ->
  query (graph_store self) generated = inr result ->
  format (_graph_response_answer_prompt self)
    (answer_kwargs (query_str qb) generated result) = inl err ->
  fst (entry_point async self qb w) = inl err
  /\ emitted w (snd (entry_point async self qb w)) =
       [ query_start (query_str qb) (next_id w);
         retrieve_start generated (S (next_id w));
         retrieve_end result (S (next_id w)) ]
  /\ open_spans (emitted w (snd (entry_point async self qb w))) =
       [ (QUERY, next_id w) ]
  /\ made_calls w (snd (entry_point async self qb w)) =
       [ completion_call async (_graph_query_synthesis_prompt self)
           (generation_kwargs self (query_str qb));
         graph_store_query_call generated ].
Proof.
  intros Hgen Hexec Hfmt. unfold generation_kwargs, answer_kwargs in *.
  destruct async; unfold emitted, made_calls; run_engine; rewrite Hgen;
    cbv beta iota; destruct (_verbose self); cbv beta iota;
    rewrite Hexec; cbv beta iota; rewrite Hfmt; cbv beta iota;
    repeat rewrite app_assoc_cons; rewrite !drop_length_app;
    (split; [reflexivity|]); (split; [reflexivity|]);
    (split; [|reflexivity]);
    cbn [open_spans existsb ends CBEventType_eqb retrieve_start query_start
         retrieve_end andb orb];
    rewrite !Nat.eqb_refl; reflexivity.
Qed.

Lemma answer_format_failure_witness :
  fst (entry_point false (engine_with_answer_prompt unfillable_prompt
                            scenario_engine) scenario_question empty_world) =
  inl (KeyError "hint")
  /\ emitted empty_world
       (snd (entry_point false (engine_with_answer_prompt unfillable_prompt
                                  scenario_engine) scenario_question
               empty_world)) =
       [ query_start (query_str scenario_question) (next_id empty_world);
         retrieve_start scenario_generated (S (next_id empty_world));
         retrieve_end "Actor1" (S (next_id empty_world)) ]
  /\ open_spans
       (emitted empty_world
          (snd (entry_point false (engine_with_answer_prompt unfillable_prompt
                                     scenario_engine) scenario_question
                  empty_world))) =
       [ (QUERY, next_id empty_world) ]
  /\ made_calls empty_world
       (snd (entry_point false (engine_with_answer_prompt unfillable_prompt
                                  scenario_engine) scenario_question
               empty_world)) =
       [ completion_call false
           (_graph_query_synthesis_prompt
              (engine_with_answer_prompt unfillable_prompt scenario_engine))
           (generation_kwargs
              (engine_with_answer_prompt unfillable_prompt scenario_engine)
              (query_str scenario_question));
         graph_store_query_call scenario_generated ].
Proof.
  apply (answer_format_failure false
           (engine_with_answer_prompt unfillable_prompt scenario_engine)
           scenario_question empty_world scenario_generated "Actor1"
           (KeyError "hint")).
  - reflexivity.
  - reflexivity.
  - vm_compute. reflexivity.
Defined.

(** X3: when the synthesizer raises, its error reaches the caller
    unchanged after the RETRIEVE span was closed: the call has emitted
    QUERY start, RETRIEVE start and RETRIEVE end, no QUERY end, and the
    QUERY span stays open. *)
Theorem synthesis_failure_leaves_query_open
  (async : bool) (self : KnowledgeGraphQueryEngine) (qb : QueryBundle)
  (w : World) (generated result prompt_string : string) (err : Exn) :
  completion async (llm_predictor (_service_context self))
    (_graph_query_synthesis_prompt self)
    (generation_kwargs self (query_str qb)) = inr generated ->
  query (graph_store self) generated = inr result ->
  format (_graph_response_answer_prompt self)
    (answer_kwargs (query_str qb) generated result) = inr prompt_string ->
  synthesis async (_response_synthesizer self) qb
    [ evidence_unit self (query_str qb) generated result prompt_string ] =
    inl err ->
  fst (entry_point async self qb w) = inl err
  /\ emitted w (snd (entry_point async self qb w)) =
       [ query_start (query_str qb) (next_id w);
         retrieve_start generated (S (next_id w));
         retrieve_end result (S (next_id w)) ]
  /\ open_spans (emitted w (snd (entry_point async self qb w))) =
       [ (QUERY, next_id w) ].
Proof.
  intros Hgen Hexec Hfmt Hsyn.
  unfold generation_kwargs, answer_kwargs, evidence_unit, evidence_metadata
    in *.
  destruct async; unfold emitted; run_engine; rewrite Hgen;
    cbv beta iota; destruct (_verbose self); cbv beta iota;
    rewrite Hexec; cbv beta iota; rewrite Hfmt; cbv beta iota;
    rewrite Hsyn; cbv beta iota;
    repeat rewrite app_assoc_cons; rewrite !drop_length_app;
    (split; [reflexivity|]); (split; [reflexivity|]);
    cbn [open_spans existsb ends CBEventType_eqb retrieve_start query_start
         retrieve_end andb orb];
    rewrite !Nat.eqb_refl; reflexivity.
Qed.

Lemma synthesis_failure_leaves_query_open_witness :
  fst (entry_point false (engine_with_synthesizer failing_synthesizer
                            scenario_engine) scenario_question empty_world) =
  inl (RuntimeError "context overflow")
  /\ emitted empty_world
       (snd (entry_point false (engine_with_synthesizer failing_synthesizer
                                  scenario_engine) scenario_question
               empty_world)) =
       [ query_start (query_str scenario_question) (next_id empty_world);
         retrieve_start scenario_generated (S (next_id empty_world));
         retrieve_end "Actor1" (S (next_id empty_world)) ]
  /\ open_spans
       (emitted empty_world
          (snd (entry_point false
                  (engine_with_synthesizer failing_synthesizer
                     scenario_engine) scenario_question empty_world))) =
       [ (QUERY, next_id empty_world) ].
Proof.
  apply (synthesis_failure_leaves_query_open false
           (engine_with_synthesizer failing_synthesizer scenario_engine)
           scenario_question empty_world scenario_generated "Actor1"
           (filled_answer_template (query_str scenario_question)
              scenario_generated "Actor1")
           (RuntimeError "context overflow")).
  - reflexivity.
  - reflexivity.
  - vm_compute. reflexivity.
  - reflexivity.
Defined.

(** X4: the answer of a successful call is, unchanged, what the
    synthesizer returned for the query bundle and the single evidence unit
    built from the generated query and the backend result; the call takes
    exactly two event ids. *)
Theorem answer_is_synthesizer_output
  (async : bool) (self : KnowledgeGraphQueryEngine) (qb : QueryBundle)
  (w w' : World) (answer : Response) :
  entry_point async self qb w = (inr answer, w') ->
  exists (generated result prompt_string : string),
    completion async (llm_predictor (_service_context self))
      (_graph_query_synthesis_prompt self)
      (generation_kwargs self (query_str qb)) = inr generated
    /\ query (graph_store self) generated = inr result
    /\ format (_graph_response_answer_prompt self)
         (answer_kwargs (query_str qb) generated result) = inr prompt_string
    /\ synthesis async (_response_synthesizer self) qb
         [ evidence_unit self (query_str qb) generated result prompt_string ]
       = inr answer
    /\ next_id w' = S (S (next_id w)).
Proof.
  intros Hrun.
  unfold generation_kwargs, answer_kwargs, evidence_unit, evidence_metadata.
  destruct async; run_engine; repeat next_outcome_in Hrun;
    inversion Hrun; subst; clear Hrun;
    do 3 eexists;
    (split; [reflexivity|]); (split; [eassumption|]);
    (split; [eassumption|]); (split; [eassumption|reflexivity]).
Qed.

Lemma answer_is_synthesizer_output_witness :
  exists (generated result prompt_string : string),
    completion false (llm_predictor (_service_context scenario_engine))
      (_graph_query_synthesis_prompt scenario_engine)
      (generation_kwargs scenario_engine (query_str scenario_question)) =
    inr generated
    /\ query (graph_store scenario_engine) generated = inr result
    /\ format (_graph_response_answer_prompt scenario_engine)
         (answer_kwargs (query_str scenario_question) generated result) =
       inr prompt_string
    /\ synthesis false (_response_synthesizer scenario_engine)
         scenario_question
         [ evidence_unit scenario_engine (query_str scenario_question)
             generated result prompt_string ]
       = inr {| response := "The actor is Actor1." |}
    /\ next_id
         (snd (entry_point false scenario_engine scenario_question
                 empty_world)) = S (S (next_id empty_world)).
Proof.
  apply (answer_is_synthesizer_output false scenario_engine scenario_question
           empty_world
           (snd (entry_point false scenario_engine scenario_question
                   empty_world))
           {| response := "The actor is Actor1." |}).
  vm_compute. reflexivity.
Defined.

(** X5: an engine that is not verbose prints nothing, whatever the outcome
    of the call. *)
Theorem quiet_engine_prints_nothing
  (async : bool) (self : KnowledgeGraphQueryEngine) (qb : QueryBundle)
  (w : World) :
  _verbose self = false ->
  stdout (snd (entry_point async self qb w)) = stdout w.
Proof.
  intros Hquiet.
  destruct async; run_engine; rewrite Hquiet; cbv beta iota;
    repeat next_outcome; reflexivity.
Qed.

Lemma quiet_engine_prints_nothing_witness :
  stdout (snd (entry_point false scenario_engine scenario_question
                 empty_world)) = stdout empty_world.
Proof.
  apply (quiet_engine_prints_nothing false scenario_engine scenario_question
           empty_world).
  reflexivity.
Defined.

(** X6: a successful call logs exactly two messages, the generated query
    and the backend result, whether verbose or not; a verbose engine also
    prints exactly three texts: the generated query and the backend result
    in yellow, the final response in green, each ending in a newline. *)
Theorem successful_call_output
  (async : bool) (self : KnowledgeGraphQueryEngine) (qb : QueryBundle)
  (w w' : World) (answer : Response) :
  entry_point async self qb w = (inr answer, w') ->
  exists (generated result : string),
    completion async (llm_predictor (_service_context self))
      (_graph_query_synthesis_prompt self)
      (generation_kwargs self (query_str qb)) = inr generated
    /\ query (graph_store self) generated = inr result
    /\ logged w' =
       (logged w ++
        [ "Graph Store Query: " +:+ generated;
          "Graph Store Response: " +:+ result ])%list
    /\ stdout w' =
       (stdout w ++
        if _verbose self then
          [ ("Graph Store Query: " +:+ generated +:+ newline, "yellow");
            ("Graph Store Response: " +:+ result +:+ newline, "yellow");
            ("Final Response: " +:+ response answer +:+ newline, "green") ]
        else [])%list.
Proof.
  intros Hrun. unfold generation_kwargs.
  destruct async; run_engine;
    destruct (_verbose self); cbv beta iota in Hrun;
    repeat next_outcome_in Hrun;
    inversion Hrun; subst; clear Hrun;
    do 2 eexists;
    (split; [reflexivity|]); (split; [eassumption|]);
    repeat rewrite app_assoc_cons; rewrite ?app_nil_r;
    split; reflexivity.
Qed.

Lemma successful_call_output_witness :
  exists (generated result : string),
    completion false
      (llm_predictor
         (_service_context (engine_with_verbose true scenario_engine)))
      (_graph_query_synthesis_prompt
         (engine_with_verbose true scenario_engine))
      (generation_kwargs (engine_with_verbose true scenario_engine)
         (query_str scenario_question)) = inr generated
    /\ query (graph_store (engine_with_verbose true scenario_engine))
         generated = inr result
    /\ logged
         (snd (entry_point false (engine_with_verbose true scenario_engine)
                 scenario_question empty_world)) =
       (logged empty_world ++
        [ "Graph Store Query: " +:+ generated;
          "Graph Store Response: " +:+ result ])%list
    /\ stdout
         (snd (entry_point false (engine_with_verbose true scenario_engine)
                 scenario_question empty_world)) =
       (stdout empty_world ++
        if _verbose (engine_with_verbose true scenario_engine) then
          [ ("Graph Store Query: " +:+ generated +:+ newline, "yellow");
            ("Graph Store Response: " +:+ result +:+ newline, "yellow");
            ("Final Response: "
               +:+ response {| response := "The actor is Actor1." |}
               +:+ newline, "green") ]
        else [])%list.
Proof.
  apply (successful_call_output false
           (engine_with_verbose true scenario_engine) scenario_question
           empty_world
           (snd (entry_point false (engine_with_verbose true scenario_engine)
                   scenario_question empty_world))
           {| response := "The actor is Actor1." |}).
  vm_compute. reflexivity.
Defined.

(** The events and the ids of a successful call. *)
Lemma successful_call_events
  (async : bool) (self : KnowledgeGraphQueryEngine) (qb : QueryBundle)
  (w w' : World) (answer : Response) :
  entry_point async self qb w = (inr answer, w') ->
  exists (generated result : string),
    events w' =
      (events w ++
       [ query_start (query_str qb) (next_id w);
         retrieve_start generated (S (next_id w));
         retrieve_end result (S (next_id w));
         query_end answer (next_id w) ])%list
    /\ next_id w' = S (S (next_id w)).
Proof.
  intros Hrun.
  destruct async; run_engine; repeat next_outcome_in Hrun;
    inversion Hrun; subst; clear Hrun;
    repeat rewrite app_assoc_cons; do 2 eexists; split; reflexivity.
Qed.

(** X7: two successful calls made one after the other (by either entry
    point, on any engines sharing the callback manager) leave eight events:
    the four of the first call, then the four of the second.  The four
    spans have four different ids, the spans of the two calls do not
    interleave, and none is left open. *)
Theorem successive_calls_do_not_interleave
  (async1 async2 : bool) (self1 self2 : KnowledgeGraphQueryEngine)
  (qb1 qb2 : QueryBundle) (w w1 w2 : World) (answer1 answer2 : Response) :
  entry_point async1 self1 qb1 w = (inr answer1, w1) ->
  entry_point async2 self2 qb2 w1 = (inr answer2, w2) ->
  emitted w w2 = (emitted w w1 ++ emitted w1 w2)%list
  /\ length (emitted w w1) = 4
  /\ length (emitted w1 w2) = 4
  /\ started_ids (emitted w w2) =
       [ next_id w; S (next_id w); S (S (next_id w));
         S (S (S (next_id w))) ]
  /\ NoDup (started_ids (emitted w w2))
  /\ open_spans (emitted w w2) = [].
Proof.
  intros Hfirst Hsecond.
  destruct (successful_call_events _ _ _ _ _ _ Hfirst)
    as (g1 & r1 & Hev1 & Hid1).
  destruct (successful_call_events _ _ _ _ _ _ Hsecond)
    as (g2 & r2 & Hev2 & Hid2).
  unfold emitted. rewrite Hev2, Hev1, Hid1.
  rewrite <- app_assoc, !drop_length_app.
  rewrite (app_assoc (events w)), drop_length_app.
  split; [reflexivity|]. split; [reflexivity|]. split; [reflexivity|].
  split; [reflexivity|]. split.
  - cbn. repeat (constructor;
                 [rewrite ?elem_of_cons, ?elem_of_nil; lia|]).
    constructor.
  - cbn. rewrite !Nat.eqb_refl. cbn. rewrite ?Nat.eqb_refl. cbn.
    rewrite ?orb_true_r. reflexivity.
Qed.

Lemma successive_calls_do_not_interleave_witness :
  emitted empty_world after_second_call =
    (emitted empty_world after_first_call
     ++ emitted after_first_call after_second_call)%list
  /\ length (emitted empty_world after_first_call) = 4
  /\ length (emitted after_first_call after_second_call) = 4
  /\ started_ids (emitted empty_world after_second_call) =
       [ next_id empty_world; S (next_id empty_world);
         S (S (next_id empty_world)); S (S (S (next_id empty_world))) ]
  /\ NoDup (started_ids (emitted empty_world after_second_call))
  /\ open_spans (emitted empty_world after_second_call) = [].
Proof.
  apply (successive_calls_do_not_interleave false true scenario_engine
           scenario_engine scenario_question scenario_question empty_world
           after_first_call after_second_call
           {| response := "The actor is Actor1." |}
           {| response := "The actor is Actor1." |}).
  - vm_compute. reflexivity.
  - vm_compute. reflexivity.
Defined.

(** The outcome of the mock [predict] for a prompt type without branch. *)
Lemma mock_predict_unhandled
  (tokenizer : PyVal -> Exn + list string) (count_tokens : string -> Z)
  (keywords_response : PyVal -> Exn + string)
  (triplets_response : PyVal -> PyVal -> Exn + string)
  (mock : LLMPredictorMock.MockLLMPredictor)
  (prompt : Prompt) (prompt_args : Dict) (w : World) :
  LLMPredictorMock.handled (prompt_type prompt) = false ->
  fst (LLMPredictorMock.predict tokenizer count_tokens keywords_response
         triplets_response mock prompt prompt_args w) =
    match format prompt prompt_args with
    | inl err => inl err
    | inr _ => inl (ValueError "Invalid prompt type.")
    end.
Proof.
  intros Hunhandled.
  cbv [LLMPredictorMock.predict LLMPredictorMock._log_start bind lift ret
       raise on_event_start fst].
  destruct (format prompt prompt_args) as [err|formatted]; [reflexivity|].
  destruct (prompt_type prompt); try discriminate Hunhandled; reflexivity.
Qed.

(** X8: an engine whose completion capability is [MockLLMPredictor] and
    whose synthesis prompt has a type without branch in the mock's
    [predict] (as the default dialect prompt, of type TEXT_TO_GRAPH_QUERY,
    has) fails every call at the generation stage: with the error of the
    formatting if the prompt cannot be formatted, with
    [ValueError "Invalid prompt type."] otherwise.  The graph store is
    never called and the QUERY span stays open. *)
Theorem mock_predictor_cannot_generate
  (tokenizer : PyVal -> Exn + list string) (count_tokens : string -> Z)
  (keywords_response : PyVal -> Exn + string)
  (triplets_response : PyVal -> PyVal -> Exn + string)
  (mock : LLMPredictorMock.MockLLMPredictor) (own : World)
  (async : bool) (self : KnowledgeGraphQueryEngine) (qb : QueryBundle)
  (w : World) :
  llm_predictor (_service_context self) =
    mock_capability tokenizer count_tokens keywords_response
      triplets_response mock own ->
  LLMPredictorMock.handled
    (prompt_type (_graph_query_synthesis_prompt self)) = false ->
  fst (entry_point async self qb w) =
    match
      format (_graph_query_synthesis_prompt self)
        (generation_kwargs self (query_str qb))
    with
    | inl err => inl err
    | inr _ => inl (ValueError "Invalid prompt type.")
    end
  /\ made_calls w (snd (entry_point async self qb w)) =
       [ completion_call async (_graph_query_synthesis_prompt self)
           (generation_kwargs self (query_str qb)) ]
  /\ open_spans (emitted w (snd (entry_point async self qb w))) =
       [ (QUERY, next_id w) ].
Proof.
  intros Hmock Hunhandled.
  assert (Hgen :
    completion async (llm_predictor (_service_context self))
      (_graph_query_synthesis_prompt self)
      (generation_kwargs self (query_str qb)) =
    match
      format (_graph_query_synthesis_prompt self)
        (generation_kwargs self (query_str qb))
    with
    | inl err => inl err
    | inr _ => inl (ValueError "Invalid prompt type.")
    end).
  { rewrite Hmock. destruct async; cbn [completion mock_capability predict
                                        apredict];
      unfold LLMPredictorMock.apredict;
      apply mock_predict_unhandled; exact Hunhandled. }
  clear Hmock. unfold generation_kwargs in *.
  destruct (format _ _) as [err|formatted];
    destruct async; unfold emitted, made_calls; run_engine; rewrite Hgen;
    cbv beta iota;
    repeat rewrite app_assoc_cons; rewrite !drop_length_app;
    repeat split; reflexivity.
Qed.

Lemma mock_predictor_cannot_generate_witness :
  fst (entry_point false mock_engine scenario_question empty_world) =
    match
      format (_graph_query_synthesis_prompt mock_engine)
        (generation_kwargs mock_engine (query_str scenario_question))
    with
    | inl err => inl err
    | inr _ => inl (ValueError "Invalid prompt type.")
    end
  /\ made_calls empty_world
       (snd (entry_point false mock_engine scenario_question empty_world)) =
       [ completion_call false (_graph_query_synthesis_prompt mock_engine)
           (generation_kwargs mock_engine (query_str scenario_question)) ]
  /\ open_spans
       (emitted empty_world
          (snd (entry_point false mock_engine scenario_question
                  empty_world))) =
       [ (QUERY, next_id empty_world) ].
Proof.
  apply (mock_predictor_cannot_generate whitespace_tokenizer count_words
           (fun _ => inr "KEYWORDS: a") (fun _ _ => inr "(a, b, c)")
           {| LLMPredictorMock.max_tokens := 256 |} empty_world false
           mock_engine scenario_question empty_world).
  - reflexivity.
  - reflexivity.
Defined.

(** X9: the constructor calls [get_schema] exactly when a storage context
    with a graph store of a registered class is given, and then once, with
    the refresh flag: also when the fetch fails or when construction fails
    afterwards for a missing dialect template.  Without storage context,
    graph store or registered class the backend is not called.  The
    constructor emits no event, takes no id, prints and logs nothing. *)
Theorem construction_fetch_order
  (registry : gmap string GraphStoreType)
  (default_service_context : ServiceContext)
  (default_synthesizer : ServiceContext -> BaseSynthesizer)
  (service_context : option ServiceContext)
  (storage_context : option StorageContext)
  (graph_query_synthesis_prompt graph_response_answer_prompt : option Prompt)
  (refresh_schema verbose : bool)
  (response_synthesizer : option BaseSynthesizer) (w : World) :
  let w' :=
    snd (__init__ registry default_service_context default_synthesizer
           service_context storage_context graph_query_synthesis_prompt
           graph_response_answer_prompt refresh_schema verbose
           response_synthesizer w) in
  made_calls w w' =
    match storage_context with
    | None => []
    | Some context =>
      match storage_graph_store context with
      | None => []
      | Some store =>
        match registry !! __class__ store with
        | None => []
        | Some _ => [get_schema_call refresh_schema]
        end
      end
    end
  /\ events w' = events w
  /\ next_id w' = next_id w
  /\ stdout w' = stdout w
  /\ logged w' = logged w.
Proof.
  intros w'. subst w'. unfold made_calls. run_init.
  destruct storage_context as [context|]; cbv beta iota;
    [|rewrite drop_all; repeat split; reflexivity].
  destruct (storage_graph_store context) as [store|]; cbv beta iota;
    [|rewrite drop_all; repeat split; reflexivity].
  destruct (registry !! __class__ store) as [kind|]; cbv beta iota;
    [|rewrite drop_all; repeat split; reflexivity].
  destruct (get_schema store refresh_schema) as [err|schema]; cbv beta iota;
    [rewrite drop_length_app; repeat split; reflexivity|].
  destruct graph_query_synthesis_prompt as [prompt|]; cbv beta iota;
    [|destruct (DEFAULT_NL2GRAPH_PROMPT_MAP !! kind); cbv beta iota];
    rewrite drop_length_app; repeat split; reflexivity.
Qed.

(** X10: the fields of a constructed engine.  The verbosity flag is the one
    passed; the answer prompt, the service context and the response
    synthesizer are the ones passed, and otherwise the default answer
    prompt, the default service context and the default synthesizer of the
    service context the engine uses; the storage context is the one passed
    and the engine's graph store is its graph store; the engine's graph
    store type is the one the registry gives for the class of its store. *)
Theorem constructed_engine_fields
  (registry : gmap string GraphStoreType)
  (default_service_context : ServiceContext)
  (default_synthesizer : ServiceContext -> BaseSynthesizer)
  (service_context : option ServiceContext)
  (storage_context : option StorageContext)
  (graph_query_synthesis_prompt graph_response_answer_prompt : option Prompt)
  (refresh_schema verbose : bool)
  (response_synthesizer : option BaseSynthesizer) (w w' : World)
  (self : KnowledgeGraphQueryEngine) :
  __init__ registry default_service_context default_synthesizer
    service_context storage_context graph_query_synthesis_prompt
    graph_response_answer_prompt refresh_schema verbose
    response_synthesizer w = (inr self, w') ->
  _verbose self = verbose
  /\ _graph_response_answer_prompt self =
       default DEFAULT_KG_RESPONSE_ANSWER_PROMPT graph_response_answer_prompt
  /\ _service_context self = default default_service_context service_context
  /\ _response_synthesizer self =
       default (default_synthesizer (_service_context self))
         response_synthesizer
  /\ storage_context = Some (_storage_context self)
  /\ storage_graph_store (_storage_context self) = Some (graph_store self)
  /\ registry !! __class__ (graph_store self) = Some (_graph_store_type self).
Proof.
  intros Hinit. run_init.
  destruct storage_context as [context|]; [|discriminate].
  cbv beta iota in Hinit.
  destruct (storage_graph_store context) as [store|] eqn:Hstore;
    [|discriminate].
  cbv beta iota in Hinit.
  destruct (registry !! __class__ store) as [kind|] eqn:Hkind;
    [|discriminate].
  cbv beta iota in Hinit.
  destruct (get_schema store refresh_schema) as [err|schema];
    [discriminate|].
  cbv beta iota in Hinit.
  destruct graph_query_synthesis_prompt as [prompt|];
    [|destruct (DEFAULT_NL2GRAPH_PROMPT_MAP !! kind); [|discriminate]];
    cbv beta iota in Hinit; inversion Hinit; subst; clear Hinit;
    cbn [_verbose _graph_response_answer_prompt _service_context
         _response_synthesizer _storage_context graph_store
         _graph_store_type];
    destruct graph_response_answer_prompt, service_context,
      response_synthesizer; repeat split; assumption.
Qed.

Lemma constructed_engine_fields_witness :
  _verbose scenario_engine = false
  /\ _graph_response_answer_prompt scenario_engine =
       default DEFAULT_KG_RESPONSE_ANSWER_PROMPT None
  /\ _service_context scenario_engine =
       default scenario_service_context None
  /\ _response_synthesizer scenario_engine =
       default ((fun _ => scenario_synthesizer)
                  (_service_context scenario_engine)) None
  /\ Some {| storage_graph_store := Some scenario_store |} =
       Some (_storage_context scenario_engine)
  /\ storage_graph_store (_storage_context scenario_engine) =
       Some (graph_store scenario_engine)
  /\ scenario_registry !! __class__ (graph_store scenario_engine) =
       Some (_graph_store_type scenario_engine).
Proof.
  apply (constructed_engine_fields scenario_registry
           scenario_service_context (fun _ => scenario_synthesizer)
           None (Some {| storage_graph_store := Some scenario_store |})
           None None true false None empty_world
           (record_call (get_schema_call true) empty_world) scenario_engine).
  vm_compute. reflexivity.
Defined.

(** * Further properties of the mock predictor *)

Ltac run_predict :=
  cbv [LLMPredictorMock.predict LLMPredictorMock._log_start
       LLMPredictorMock._log_end llm_start_payload llm_end_payload
       bind lift ret raise on_event_start on_event_end emit take_id
       events next_id calls stdout logged fst snd] in *.

(** X11: a [predict] that returns an output has emitted exactly one LLM
    start event and one LLM end event with the same id; the end event
    carries the output, the formatted prompt and their token counts, whose
    sum is reported as the total.  One event id is taken and no span is
    left open. *)
Theorem mock_predict_success_span
  (tokenizer : PyVal -> Exn + list string) (count_tokens : string -> Z)
  (keywords_response : PyVal -> Exn + string)
  (triplets_response : PyVal -> PyVal -> Exn + string)
  (self : LLMPredictorMock.MockLLMPredictor)
  (prompt : Prompt) (prompt_args : Dict) (w w' : World) (output : string) :
  LLMPredictorMock.predict tokenizer count_tokens keywords_response
    triplets_response self prompt prompt_args w = (inr output, w') ->
  exists (formatted_prompt : string),
    format prompt prompt_args = inr formatted_prompt
    /\ emitted w w' =
         [ EventStart LLM (llm_start_payload prompt prompt_args) (next_id w);
           EventEnd LLM
             (llm_end_payload count_tokens output formatted_prompt)
             (next_id w) ]
    /\ open_spans (emitted w w') = []
    /\ next_id w' = S (next_id w).
Proof.
  intros Hrun. unfold emitted. run_predict.
  destruct (format prompt prompt_args) as [err|formatted]; [discriminate|].
  cbv beta iota in Hrun.
  destruct (prompt_type prompt); cbv beta iota in Hrun;
    repeat next_outcome_in Hrun; try discriminate;
    inversion Hrun; subst; clear Hrun;
    rewrite app_assoc_cons, drop_length_app;
    eexists; (split; [reflexivity|]); (split; [reflexivity|]);
    (split; [|reflexivity]);
    cbn [open_spans existsb ends CBEventType_eqb andb orb];
    rewrite Nat.eqb_refl; reflexivity.
Qed.

Lemma mock_predict_success_span_witness :
  exists (formatted_prompt : string),
    format (Prompt_init "Insert {num}" TREE_INSERT)
      (<["num" := VInt 3]> ∅) = inr formatted_prompt
    /\ emitted empty_world
         (snd (scenario_mock_predict (Prompt_init "Insert {num}" TREE_INSERT)
                 (<["num" := VInt 3]> ∅) empty_world)) =
         [ EventStart LLM
             (llm_start_payload (Prompt_init "Insert {num}" TREE_INSERT)
                (<["num" := VInt 3]> ∅)) (next_id empty_world);
           EventEnd LLM
             (llm_end_payload count_words "ANSWER: 1" formatted_prompt)
             (next_id empty_world) ]
    /\ open_spans
         (emitted empty_world
            (snd (scenario_mock_predict
                    (Prompt_init "Insert {num}" TREE_INSERT)
                    (<["num" := VInt 3]> ∅) empty_world))) = []
    /\ next_id
         (snd (scenario_mock_predict (Prompt_init "Insert {num}" TREE_INSERT)
                 (<["num" := VInt 3]> ∅) empty_world)) =
       S (next_id empty_world).
Proof.
  apply (mock_predict_success_span whitespace_tokenizer count_words
           (fun _ => inr "KEYWORDS: a") (fun _ _ => inr "(a, b, c)")
           {| LLMPredictorMock.max_tokens := 256 |}
           (Prompt_init "Insert {num}" TREE_INSERT) (<["num" := VInt 3]> ∅)
           empty_world
           (snd (scenario_mock_predict
                   (Prompt_init "Insert {num}" TREE_INSERT)
                   (<["num" := VInt 3]> ∅) empty_world))
           "ANSWER: 1").
  vm_compute. reflexivity.
Defined.

(** X12: a [predict] that raises (the formatting fails, a key is missing,
    a helper raises, or the prompt type has no branch) has emitted the LLM
    start event only: no end event follows and the LLM span stays open. *)
Theorem mock_predict_failure_leaves_span_open
  (tokenizer : PyVal -> Exn + list string) (count_tokens : string -> Z)
  (keywords_response : PyVal -> Exn + string)
  (triplets_response : PyVal -> PyVal -> Exn + string)
  (self : LLMPredictorMock.MockLLMPredictor)
  (prompt : Prompt) (prompt_args : Dict) (w w' : World) (err : Exn) :
  LLMPredictorMock.predict tokenizer count_tokens keywords_response
    triplets_response self prompt prompt_args w = (inl err, w') ->
  emitted w w' =
    [ EventStart LLM (llm_start_payload prompt prompt_args) (next_id w) ]
  /\ end_events (emitted w w') = []
  /\ open_spans (emitted w w') = [ (LLM, next_id w) ].
Proof.
  intros Hrun. unfold emitted. run_predict.
  destruct (format prompt prompt_args) as [e|formatted];
    cbv beta iota in Hrun;
    [inversion Hrun; subst; clear Hrun; rewrite drop_length_app;
     repeat split; reflexivity|].
  destruct (prompt_type prompt); cbv beta iota in Hrun;
    repeat match type of Hrun with
           | context [match ?c with inl _ => _ | inr _ => _ end] =>
               destruct c eqn:?; cbv beta iota in Hrun
           end;
    try discriminate;
    inversion Hrun; subst; clear Hrun; rewrite drop_length_app;
    repeat split; reflexivity.
Qed.

Lemma mock_predict_failure_leaves_span_open_witness :
  emitted empty_world
    (snd (scenario_mock_predict DEFAULT_NEBULAGRAPH_NL2CYPHER_PROMPT
            (generation_kwargs scenario_engine "Who?") empty_world)) =
    [ EventStart LLM
        (llm_start_payload DEFAULT_NEBULAGRAPH_NL2CYPHER_PROMPT
           (generation_kwargs scenario_engine "Who?"))
        (next_id empty_world) ]
  /\ end_events
       (emitted empty_world
          (snd (scenario_mock_predict DEFAULT_NEBULAGRAPH_NL2CYPHER_PROMPT
                  (generation_kwargs scenario_engine "Who?") empty_world))) =
     []
  /\ open_spans
       (emitted empty_world
          (snd (scenario_mock_predict DEFAULT_NEBULAGRAPH_NL2CYPHER_PROMPT
                  (generation_kwargs scenario_engine "Who?") empty_world))) =
     [ (LLM, next_id empty_world) ].
Proof.
  apply (mock_predict_failure_leaves_span_open whitespace_tokenizer
           count_words (fun _ => inr "KEYWORDS: a")
           (fun _ _ => inr "(a, b, c)")
           {| LLMPredictorMock.max_tokens := 256 |}
           DEFAULT_NEBULAGRAPH_NL2CYPHER_PROMPT
           (generation_kwargs scenario_engine "Who?") empty_world
           (snd (scenario_mock_predict DEFAULT_NEBULAGRAPH_NL2CYPHER_PROMPT
                   (generation_kwargs scenario_engine "Who?") empty_world))
           (ValueError "Invalid prompt type.")).
  vm_compute. reflexivity.
Defined.

(** X13: [predict] formats the prompt before it looks at the prompt type:
    when the formatting fails, [predict] raises that error for every prompt
    type, also for the types whose answer does not depend on the arguments
    (TREE_INSERT, TREE_SELECT, CUSTOM). *)
Theorem mock_predict_needs_formattable_prompt
  (tokenizer : PyVal -> Exn + list string) (count_tokens : string -> Z)
  (keywords_response : PyVal -> Exn + string)
  (triplets_response : PyVal -> PyVal -> Exn + string)
  (self : LLMPredictorMock.MockLLMPredictor)
  (prompt : Prompt) (prompt_args : Dict) (w : World) (err : Exn) :
  format prompt prompt_args = inl err ->
  fst (LLMPredictorMock.predict tokenizer count_tokens keywords_response
         triplets_response self prompt prompt_args w) = inl err.
Proof.
  intros Hfmt. run_predict. rewrite Hfmt. reflexivity.
Qed.

Lemma mock_predict_needs_formattable_prompt_witness :
  fst (scenario_mock_predict (Prompt_init "Insert {num}" TREE_INSERT) ∅
         empty_world) = inl (KeyError "num").
Proof.
  apply (mock_predict_needs_formattable_prompt whitespace_tokenizer
           count_words (fun _ => inr "KEYWORDS: a")
           (fun _ _ => inr "(a, b, c)")
           {| LLMPredictorMock.max_tokens := 256 |}
           (Prompt_init "Insert {num}" TREE_INSERT) ∅ empty_world
           (KeyError "num")).
  vm_compute. reflexivity.
Defined.

(** X14: for the prompt types whose branch reads a key of the arguments
    (context_str for SUMMARY and QUESTION_ANSWER, num_chunks for
    TREE_SELECT_MULTIPLE, text for KEYWORD_EXTRACT and
    KNOWLEDGE_TRIPLET_EXTRACT, question for QUERY_KEYWORD_EXTRACT), a
    prompt that formats but whose arguments lack that key makes [predict]
    raise the [KeyError] of that key. *)
Theorem mock_predict_missing_argument
  (tokenizer : PyVal -> Exn + list string) (count_tokens : string -> Z)
  (keywords_response : PyVal -> Exn + string)
  (triplets_response : PyVal -> PyVal -> Exn + string)
  (self : LLMPredictorMock.MockLLMPredictor)
  (prompt : Prompt) (prompt_args : Dict) (w : World)
  (formatted_prompt key : string) :
  format prompt prompt_args = inr formatted_prompt ->
  first_key_read (prompt_type prompt) = Some key ->
  prompt_args !! key = None ->
  fst (LLMPredictorMock.predict tokenizer count_tokens keywords_response
         triplets_response self prompt prompt_args w) = inl (KeyError key).
Proof.
  intros Hfmt Hkey Hmissing. run_predict. rewrite Hfmt. cbv beta iota.
  destruct (prompt_type prompt); try discriminate Hkey;
    injection Hkey as <-;
    cbv [LLMPredictorMock._mock_summary_predict LLMPredictorMock._mock_answer
         LLMPredictorMock._mock_keyword_extract
         LLMPredictorMock._mock_query_keyword_extract
         LLMPredictorMock._mock_knowledge_graph_triplet_extract
         getitem ebind];
    rewrite Hmissing; reflexivity.
Qed.

Lemma mock_predict_missing_argument_witness :
  fst (scenario_mock_predict (Prompt_init "Summarise." SUMMARY) ∅
         empty_world) = inl (KeyError "context_str").
Proof.
  apply (mock_predict_missing_argument whitespace_tokenizer count_words
           (fun _ => inr "KEYWORDS: a") (fun _ _ => inr "(a, b, c)")
           {| LLMPredictorMock.max_tokens := 256 |}
           (Prompt_init "Summarise." SUMMARY) ∅ empty_world "Summarise."
           "context_str").
  - reflexivity.
  - reflexivity.
  - reflexivity.
Defined.

Lemma words_join_summary (n : nat) :
  String.words (join " " (replicate n "summary")) = replicate n "summary".
Proof.
  destruct n as [|n]; [reflexivity|].
  induction n as [|n IH]; [reflexivity|].
  change (replicate (S (S n)) "summary")
    with ("summary" :: replicate (S n) "summary") in *.
  change (join " " ("summary" :: replicate (S n) "summary"))
    with ("summary " +:+ join " " (replicate (S n) "summary")).
  change (String.words
            ("summary " +:+ join " " (replicate (S n) "summary")))
    with ("summary"
            :: String.words (join " " (replicate (S n) "summary"))).
  rewrite IH. reflexivity.
Qed.

Lemma words_join_answer (n : nat) :
  String.words (join " " (replicate n "answer")) = replicate n "answer".
Proof.
  destruct n as [|n]; [reflexivity|].
  induction n as [|n IH]; [reflexivity|].
  change (replicate (S (S n)) "answer")
    with ("answer" :: replicate (S n) "answer") in *.
  change (join " " ("answer" :: replicate (S n) "answer"))
    with ("answer " +:+ join " " (replicate (S n) "answer")).
  change (String.words ("answer " +:+ join " " (replicate (S n) "answer")))
    with ("answer" :: String.words (join " " (replicate (S n) "answer"))).
  rewrite IH. reflexivity.
Qed.

(** X15: the token budget of the mock summary and the mock answer.  When
    [_mock_summary_predict] (word "summary") or [_mock_answer] (word
    "answer") returns, the output consists of that word repeated
    min(number of tokens of context_str, max_tokens) times, none for a
    negative [max_tokens]: never more words than the context has tokens,
    and never more than a non-negative [max_tokens]. *)
Theorem mock_summary_and_answer_budget
  (tokenizer : PyVal -> Exn + list string) (max_tokens : Z)
  (prompt_args : Dict) (word output : string) :
  (LLMPredictorMock._mock_summary_predict tokenizer max_tokens prompt_args =
     inr output /\ word = "summary")
  \/ (LLMPredictorMock._mock_answer tokenizer max_tokens prompt_args =
        inr output /\ word = "answer") ->
  exists (context_str : PyVal) (tokens : list string),
    prompt_args !! "context_str" = Some context_str
    /\ tokenizer context_str = inr tokens
    /\ String.words output =
       replicate (Z.to_nat (Z.min (Z.of_nat (length tokens)) max_tokens)) word
    /\ (length (String.words output) <= length tokens)%nat
    /\ ((0 <= max_tokens)%Z ->
        (Z.of_nat (length (String.words output)) <= max_tokens)%Z).
Proof.
  intros [[Hrun ->]|[Hrun ->]];
    cbv [LLMPredictorMock._mock_summary_predict LLMPredictorMock._mock_answer
         LLMPredictorMock.num_tokens LLMPredictorMock.repeat_word getitem
         ebind] in Hrun;
    destruct (prompt_args !! "context_str") as [context_str|] eqn:Hctx;
    try discriminate;
    destruct (tokenizer context_str) as [e|tokens] eqn:Htok;
    try discriminate;
    injection Hrun as <-;
    exists context_str, tokens;
    (split; [reflexivity|]); (split; [exact Htok|]);
    rewrite ?words_join_summary, ?words_join_answer, length_replicate;
    (split; [reflexivity|]); split; lia.
Qed.

Lemma mock_summary_and_answer_budget_witness :
  exists (context_str : PyVal) (tokens : list string),
    (<["context_str" := VStr "a b c d e"]> ∅ : Dict) !! "context_str" =
      Some context_str
    /\ whitespace_tokenizer context_str = inr tokens
    /\ String.words "summary summary summary" =
       replicate (Z.to_nat (Z.min (Z.of_nat (length tokens)) 3)) "summary"
    /\ (length (String.words "summary summary summary") <= length tokens)%nat
    /\ ((0 <= 3)%Z ->
        (Z.of_nat (length (String.words "summary summary summary")) <= 3)%Z).
Proof.
  apply (mock_summary_and_answer_budget whitespace_tokenizer 3
           (<["context_str" := VStr "a b c d e"]> ∅) "summary"
           "summary summary summary").
  left. split; vm_compute; reflexivity.
Defined.

(** X16: where [_mock_refine] takes the existing answer from.  An
    existing_answer among the arguments is used and the prompt's partial
    arguments are not looked at; without it, the prompt's partial
    existing_answer is used exactly as if it had been passed as an
    argument; when neither has it, the call raises
    [KeyError "existing_answer"], before context_msg is read. *)
Theorem mock_refine_existing_answer_source
  (tokenizer : PyVal -> Exn + list string) (max_tokens : Z)
  (prompt : Prompt) (prompt_args : Dict) :
  match prompt_args !! "existing_answer" with
  | Some _ =>
      forall other_prompt : Prompt,
        LLMPredictorMock._mock_refine tokenizer max_tokens prompt prompt_args =
        LLMPredictorMock._mock_refine tokenizer max_tokens other_prompt
          prompt_args
  | None =>
      match partial_dict prompt !! "existing_answer" with
      | Some partial_answer =>
          LLMPredictorMock._mock_refine tokenizer max_tokens prompt
            prompt_args =
          LLMPredictorMock._mock_refine tokenizer max_tokens prompt
            (<["existing_answer" := partial_answer]> prompt_args)
      | None =>
          LLMPredictorMock._mock_refine tokenizer max_tokens prompt
            prompt_args = inl (KeyError "existing_answer")
      end
  end.
Proof.
  unfold LLMPredictorMock._mock_refine, getitem.
  destruct (prompt_args !! "existing_answer") as [given|] eqn:Hgiven.
  - intros other_prompt. reflexivity.
  - destruct (partial_dict prompt !! "existing_answer") as [partial|];
      [|reflexivity].
    rewrite lookup_insert_eq.
    rewrite lookup_insert_ne by discriminate. reflexivity.
Qed.

(** X17: the token budget of the mock refinement.  When [_mock_refine]
    returns, the output is the word "answer" repeated
    min(tokens of context_msg + tokens of the existing answer, max_tokens)
    times: never more words than those two texts have tokens together, and
    never more than a non-negative [max_tokens]. *)
Theorem mock_refine_budget
  (tokenizer : PyVal -> Exn + list string) (max_tokens : Z)
  (prompt : Prompt) (prompt_args : Dict) (output : string) :
  LLMPredictorMock._mock_refine tokenizer max_tokens prompt prompt_args =
    inr output ->
  exists (existing_answer context_msg : PyVal)
         (context_tokens existing_tokens : list string),
    (prompt_args !! "existing_answer" = Some existing_answer
     \/ prompt_args !! "existing_answer" = None
        /\ partial_dict prompt !! "existing_answer" = Some existing_answer)
    /\ prompt_args !! "context_msg" = Some context_msg
    /\ tokenizer context_msg = inr context_tokens
    /\ tokenizer existing_answer = inr existing_tokens
    /\ String.words output =
       replicate
         (Z.to_nat
            (Z.min
               (Z.of_nat (length context_tokens)
                + Z.of_nat (length existing_tokens)) max_tokens))
         "answer"
    /\ (length (String.words output) <=
        length context_tokens + length existing_tokens)%nat
    /\ ((0 <= max_tokens)%Z ->
        (Z.of_nat (length (String.words output)) <= max_tokens)%Z).
Proof.
  intros Hrun.
  cbv [LLMPredictorMock._mock_refine LLMPredictorMock.num_tokens
       LLMPredictorMock.repeat_word getitem ebind] in Hrun.
  assert (Hsource :
    exists existing_answer,
      (prompt_args !! "existing_answer" = Some existing_answer
       \/ prompt_args !! "existing_answer" = None
          /\ partial_dict prompt !! "existing_answer" = Some existing_answer)
      /\ match prompt_args !! "existing_answer" with
         | Some v => inr v
         | None =>
             match partial_dict prompt !! "existing_answer" with
             | Some v => inr v
             | None => inl (KeyError "existing_answer")
             end
         end = (inr existing_answer : Exn + PyVal)).
  { destruct (prompt_args !! "existing_answer") as [given|];
      [exists given; split; [left|]; reflexivity|].
    destruct (partial_dict prompt !! "existing_answer") as [partial|];
      [exists partial; split; [right; split|]; reflexivity|discriminate]. }
  destruct Hsource as (existing_answer & Hwhere & Hsource).
  rewrite Hsource in Hrun. cbv beta iota in Hrun.
  destruct (prompt_args !! "context_msg") as [context_msg|] eqn:Hctx;
    [|discriminate].
  destruct (tokenizer context_msg) as [e1|context_tokens] eqn:Htok1;
    [discriminate|].
  destruct (tokenizer existing_answer) as [e2|existing_tokens] eqn:Htok2;
    [discriminate|].
  injection Hrun as <-.
  exists existing_answer, context_msg, context_tokens, existing_tokens.
  split; [exact Hwhere|]. split; [reflexivity|].
  split; [exact Htok1|]. split; [exact Htok2|].
  rewrite words_join_answer, length_replicate.
  split; [reflexivity|]. split; lia.
Qed.

Lemma mock_refine_budget_witness :
  exists (existing_answer context_msg : PyVal)
         (context_tokens existing_tokens : list string),
    ((<["context_msg" := VStr "a b"]> ∅ : Dict) !! "existing_answer" =
       Some existing_answer
     \/ (<["context_msg" := VStr "a b"]> ∅ : Dict) !! "existing_answer" = None
        /\ partial_dict
             {| template := "{context_msg}"; prompt_type := REFINE;
                partial_dict := <["existing_answer" := VStr "c"]> ∅ |}
             !! "existing_answer" = Some existing_answer)
    /\ (<["context_msg" := VStr "a b"]> ∅ : Dict) !! "context_msg" =
       Some context_msg
    /\ whitespace_tokenizer context_msg = inr context_tokens
    /\ whitespace_tokenizer existing_answer = inr existing_tokens
    /\ String.words "answer answer answer" =
       replicate
         (Z.to_nat
            (Z.min
               (Z.of_nat (length context_tokens)
                + Z.of_nat (length existing_tokens)) 256))
         "answer"
    /\ (length (String.words "answer answer answer") <=
        length context_tokens + length existing_tokens)%nat
    /\ ((0 <= 256)%Z ->
        (Z.of_nat (length (String.words "answer answer answer")) <= 256)%Z).
Proof.
  apply (mock_refine_budget whitespace_tokenizer 256
           {| template := "{context_msg}"; prompt_type := REFINE;
              partial_dict := <["existing_answer" := VStr "c"]> ∅ |}
           (<["context_msg" := VStr "a b"]> ∅) "answer answer answer").
  vm_compute. reflexivity.
Defined.

(** * Further properties of the mock LLM *)

Lemma string_append_nil_r (s : string) : s +:+ "" = s.
Proof.
  induction s as [|c s IH]; [reflexivity|].
  change (String c s +:+ "") with (String c (s +:+ "")).
  rewrite IH. reflexivity.
Qed.

Lemma string_append_assoc (a b c : string) :
  (a +:+ b) +:+ c = a +:+ (b +:+ c).
Proof.
  induction a as [|x a IH]; [reflexivity|].
  change (String x ((a +:+ b) +:+ c) = String x (a +:+ (b +:+ c))).
  rewrite IH. reflexivity.
Qed.

Lemma join_empty_cons (x : string) (l : list string) :
  join "" (x :: l) = x +:+ join "" l.
Proof.
  destruct l as [|y l]; [|reflexivity].
  change (join "" [x]) with x. change (join "" []) with "".
  symmetry. apply string_append_nil_r.
Qed.

Lemma lookup_map {A B : Type} (f : A -> B) (l : list A) (k : nat) :
  map f l !! k = option_map f (l !! k).
Proof.
  revert k. induction l as [|a l IH]; intros [|k]; try reflexivity.
  apply IH.
Qed.

Lemma range_lookup (n : Z) (k : nat) (i : Z) :
  range n !! k = Some i -> i = Z.of_nat k /\ (k < Z.to_nat n)%nat.
Proof.
  unfold range. rewrite lookup_map.
  destruct (seq 0 (Z.to_nat n) !! k) as [j|] eqn:Hseq; [|discriminate].
  apply lookup_seq in Hseq as [-> Hlt].
  intros [= <-]. split; [reflexivity|exact Hlt].
Qed.

Lemma generate_text_words (self : LLMsMock.MockLLM) (k : nat) :
  LLMsMock._generate_text self (Z.of_nat k) = join " " (replicate k "text")
  /\ String.words (LLMsMock._generate_text self (Z.of_nat k)) =
     replicate k "text".
Proof.
  unfold LLMsMock._generate_text, range.
  rewrite map_const_seq, Nat2Z.id.
  split; [reflexivity|apply words_join_text].
Qed.

Lemma characters_nil (s : string) : characters s = [] -> s = "".
Proof.
  destruct s as [|c rest]; [reflexivity|].
  cbn [characters]. destruct (characters rest) as [|next more];
    [discriminate|].
  destruct (starts_with_continuation rest); discriminate.
Qed.

Lemma characters_head (c : ascii) (rest : string) :
  exists tail more, characters (String c rest) = String c tail :: more.
Proof.
  cbn [characters]. destruct (characters rest) as [|next more];
    [eexists _, _; reflexivity|].
  destruct (starts_with_continuation rest); eexists _, _; reflexivity.
Qed.

Lemma join_characters (s : string) : join "" (characters s) = s.
Proof.
  induction s as [|c rest IH]; [reflexivity|].
  cbn [characters].
  destruct (characters rest) as [|next more] eqn:Hrest.
  - apply characters_nil in Hrest. subst rest. reflexivity.
  - rewrite join_empty_cons in IH.
    destruct (starts_with_continuation rest); rewrite !join_empty_cons.
    + change (String c next +:+ join "" more)
        with (String c (next +:+ join "" more)).
      rewrite IH. reflexivity.
    + change (String c "" +:+ (next +:+ join "" more))
        with (String c (next +:+ join "" more)).
      rewrite IH. reflexivity.
Qed.

Lemma characters_shape (s : string) :
  Forall (fun ch => is_character ch = true) (characters s).
Proof.
  induction s as [|c rest IH]; [constructor|].
  cbn [characters].
  destruct (characters rest) as [|next more] eqn:Hrest;
    [repeat constructor|].
  destruct rest as [|c' rest']; [discriminate Hrest|].
  destruct (characters_head c' rest') as (tail & more' & Hhead).
  rewrite Hrest in Hhead. injection Hhead as -> ->.
  apply Forall_cons in IH as [Hnext Hmore].
  cbn [starts_with_continuation].
  destruct (is_continuation c') eqn:Hc'.
  - constructor; [|exact Hmore].
    cbn [is_character all_continuation] in *. rewrite Hc', Hnext.
    reflexivity.
  - constructor; [reflexivity|]. constructor; assumption.
Qed.

Lemma characters_length (s : string) :
  length (characters s) =
  ((if starts_with_continuation s then 1 else 0) + lead_bytes s)%nat.
Proof.
  induction s as [|c rest IH]; [reflexivity|].
  cbn [characters starts_with_continuation lead_bytes].
  destruct (characters rest) as [|next more] eqn:Hrest.
  - apply characters_nil in Hrest. subst rest.
    destruct (is_continuation c); reflexivity.
  - destruct (starts_with_continuation rest);
      cbn [length] in *; rewrite IH;
      destruct (is_continuation c); reflexivity.
Qed.

(** X18: with [max_tokens] unset or 0, [stream_complete] yields one
    response per character (code point) of the prompt, in order: each
    carries the whole prompt as text and one character as delta, a first
    byte with its continuation bytes, and the deltas joined give back the
    prompt (no response at all for the empty prompt).  For a prompt that
    does not begin with a continuation byte the number of responses is the
    number of its bytes that are not continuation bytes. *)
Theorem stream_complete_echoes_prompt
  (self : LLMsMock.MockLLM) (prompt : string) :
  LLMsMock.truthy (LLMsMock.max_tokens self) = false ->
  map LLMsMock.delta (LLMsMock.stream_complete self prompt) =
    map Some (characters prompt)
  /\ length (LLMsMock.stream_complete self prompt) =
     length (characters prompt)
  /\ (forall r, In r (LLMsMock.stream_complete self prompt) ->
                LLMsMock.text r = prompt)
  /\ join "" (characters prompt) = prompt
  /\ Forall (fun ch => is_character ch = true) (characters prompt)
  /\ (starts_with_continuation prompt = false ->
      length (LLMsMock.stream_complete self prompt) = lead_bytes prompt).
Proof.
  intros Hfalsy.
  assert (Hstream :
    LLMsMock.stream_complete self prompt =
    map (fun ch => {| LLMsMock.text := prompt; LLMsMock.delta := Some ch |})
      (characters prompt)).
  { unfold LLMsMock.stream_complete.
    destruct (LLMsMock.max_tokens self) as [n|]; [|reflexivity].
    rewrite Hfalsy. reflexivity. }
  rewrite Hstream. split; [|split; [|split; [|split; [|split]]]].
  - rewrite map_map. reflexivity.
  - apply length_map.
  - intros r Hin. apply in_map_iff in Hin as (ch & <- & _). reflexivity.
  - apply join_characters.
  - apply characters_shape.
  - intros Hlead. rewrite length_map, characters_length, Hlead. reflexivity.
Qed.

Lemma stream_complete_echoes_prompt_witness :
  map LLMsMock.delta
    (LLMsMock.stream_complete {| LLMsMock.max_tokens := Some 0%Z |}
       accented_prompt) =
    map Some (characters accented_prompt)
  /\ length (LLMsMock.stream_complete {| LLMsMock.max_tokens := Some 0%Z |}
               accented_prompt) =
     length (characters accented_prompt)
  /\ (forall r,
        In r (LLMsMock.stream_complete {| LLMsMock.max_tokens := Some 0%Z |}
                accented_prompt) ->
        LLMsMock.text r = accented_prompt)
  /\ join "" (characters accented_prompt) = accented_prompt
  /\ Forall (fun ch => is_character ch = true) (characters accented_prompt)
  /\ (starts_with_continuation accented_prompt = false ->
      length (LLMsMock.stream_complete {| LLMsMock.max_tokens := Some 0%Z |}
                accented_prompt) = lead_bytes accented_prompt).
Proof.
  apply (stream_complete_echoes_prompt {| LLMsMock.max_tokens := Some 0%Z |}
           accented_prompt).
  reflexivity.
Defined.

(** The three bytes of [accented_prompt] give two responses: the two bytes
    of the accented letter are one delta. *)
Lemma stream_complete_accented_prompt :
  map LLMsMock.delta
    (LLMsMock.stream_complete {| LLMsMock.max_tokens := None |}
       accented_prompt) =
  [ Some (String (ascii_of_nat 195) (String (ascii_of_nat 169) ""));
    Some "!" ].
Proof. vm_compute. reflexivity. Qed.

(** X19: with a [max_tokens] other than 0, [stream_complete] yields
    [max_tokens] responses (none for a negative value) and ignores the
    prompt: the response at position k, counted from 0, has as text k
    repetitions of "text" joined by spaces and as delta "text ". *)
Theorem stream_complete_counts_tokens
  (self : LLMsMock.MockLLM) (prompt : string) (n : Z) :
  LLMsMock.max_tokens self = Some n ->
  n <> 0%Z ->
  length (LLMsMock.stream_complete self prompt) = Z.to_nat n
  /\ forall (k : nat) (r : LLMsMock.CompletionResponse),
       LLMsMock.stream_complete self prompt !! k = Some r ->
       LLMsMock.text r = join " " (replicate k "text")
       /\ String.words (LLMsMock.text r) = replicate k "text"
       /\ LLMsMock.delta r = Some "text ".
Proof.
  intros Hmax Hnonzero.
  assert (Hstream :
    LLMsMock.stream_complete self prompt =
    map (fun i => {| LLMsMock.text := LLMsMock._generate_text self i;
                     LLMsMock.delta := Some "text " |}) (range n)).
  { unfold LLMsMock.stream_complete. rewrite Hmax.
    cbn [LLMsMock.truthy]. apply Z.eqb_neq in Hnonzero.
    rewrite Hnonzero. reflexivity. }
  rewrite Hstream. split.
  - unfold range. rewrite !length_map, length_seq. reflexivity.
  - intros k r Hk. rewrite lookup_map in Hk.
    destruct (range n !! k) as [i|] eqn:Hi; [|discriminate].
    apply range_lookup in Hi as [-> _].
    injection Hk as <-. cbn [LLMsMock.text LLMsMock.delta].
    destruct (generate_text_words self k) as [Htext Hwords].
    split; [exact Htext|]. split; [exact Hwords|reflexivity].
Qed.

Lemma stream_complete_counts_tokens_witness :
  length (LLMsMock.stream_complete {| LLMsMock.max_tokens := Some 3%Z |} "hi")
  = Z.to_nat 3
  /\ forall (k : nat) (r : LLMsMock.CompletionResponse),
       LLMsMock.stream_complete {| LLMsMock.max_tokens := Some 3%Z |} "hi"
         !! k = Some r ->
       LLMsMock.text r = join " " (replicate k "text")
       /\ String.words (LLMsMock.text r) = replicate k "text"
       /\ LLMsMock.delta r = Some "text ".
Proof.
  apply (stream_complete_counts_tokens {| LLMsMock.max_tokens := Some 3%Z |}
           "hi" 3).
  - reflexivity.
  - discriminate.
Defined.

(** X20: with a positive [max_tokens], no response of [stream_complete]
    carries the text that [complete] returns: the streamed texts have 0 to
    [max_tokens] - 1 repetitions of "text", and [complete] returns
    [max_tokens] of them. *)
Theorem stream_complete_stops_short_of_complete
  (self : LLMsMock.MockLLM) (prompt : string) (n : Z)
  (r : LLMsMock.CompletionResponse) :
  LLMsMock.max_tokens self = Some n ->
  (0 < n)%Z ->
  In r (LLMsMock.stream_complete self prompt) ->
  (length (String.words (LLMsMock.text r)) < Z.to_nat n)%nat
  /\ length (String.words (LLMsMock.text (LLMsMock.complete self prompt))) =
     Z.to_nat n
  /\ LLMsMock.text r <> LLMsMock.text (LLMsMock.complete self prompt).
Proof.
  intros Hmax Hpos Hin.
  assert (Hcomplete :
    String.words (LLMsMock.text (LLMsMock.complete self prompt)) =
    replicate (Z.to_nat n) "text").
  { unfold LLMsMock.complete. rewrite Hmax. cbn [LLMsMock.truthy].
    replace (n =? 0)%Z with false by (symmetry; apply Z.eqb_neq; lia).
    cbn [negb LLMsMock.text].
    rewrite <- (Z2Nat.id n) at 1 by lia.
    apply generate_text_words. }
  assert (Hstream :
    exists k, (k < Z.to_nat n)%nat
              /\ String.words (LLMsMock.text r) = replicate k "text").
  { unfold LLMsMock.stream_complete in Hin. rewrite Hmax in Hin.
    cbn [LLMsMock.truthy] in Hin.
    replace (n =? 0)%Z with false in Hin by (symmetry; apply Z.eqb_neq; lia).
    cbn [negb] in Hin.
    apply in_map_iff in Hin as (i & <- & Hi).
    apply list_elem_of_In, list_elem_of_lookup in Hi as [k Hk].
    apply range_lookup in Hk as [-> Hlt].
    exists k. split; [exact Hlt|].
    cbn [LLMsMock.text]. apply generate_text_words. }
  destruct Hstream as (k & Hlt & Hwords).
  rewrite Hwords, Hcomplete, !length_replicate.
  split; [exact Hlt|]. split; [reflexivity|].
  intros Heq. rewrite Heq, Hcomplete in Hwords.
  apply (f_equal length) in Hwords. rewrite !length_replicate in Hwords. lia.
Qed.

Lemma stream_complete_stops_short_of_complete_witness :
  (length
     (String.words
        (LLMsMock.text {| LLMsMock.text := "text"; LLMsMock.delta := Some "text " |}))
   < Z.to_nat 2)%nat
  /\ length
       (String.words
          (LLMsMock.text
             (LLMsMock.complete {| LLMsMock.max_tokens := Some 2%Z |} "hi"))) =
     Z.to_nat 2
  /\ LLMsMock.text {| LLMsMock.text := "text"; LLMsMock.delta := Some "text " |}
     <> LLMsMock.text
          (LLMsMock.complete {| LLMsMock.max_tokens := Some 2%Z |} "hi").
Proof.
  apply (stream_complete_stops_short_of_complete
           {| LLMsMock.max_tokens := Some 2%Z |} "hi" 2
           {| LLMsMock.text := "text"; LLMsMock.delta := Some "text " |}).
  - reflexivity.
  - lia.
  - vm_compute. right. left. reflexivity.
Defined.

(** * Properties of the Anthropic LLM *)

(** X21: which value a keyword of the request has.  A keyword of the call
    wins over the same keyword in [additional_kwargs], which wins over the
    three settings of the model: model, temperature and
    max_tokens_to_sample; these three are part of every request, and no
    other keyword is unless the call or [additional_kwargs] gives it. *)
Theorem all_kwargs_precedence
  (self : LLMsAnthropic.Anthropic) (kwargs : LLMsAnthropic.Kwargs)
  (key : string) :
  LLMsAnthropic._get_all_kwargs self kwargs !! key =
    match kwargs !! key with
    | Some v => Some v
    | None =>
      match LLMsAnthropic._additional_kwargs self !! key with
      | Some v => Some v
      | None =>
          if String.eqb key "model"
          then Some (LLMsAnthropic.AStr (LLMsAnthropic._model self))
          else if String.eqb key "temperature"
          then Some (LLMsAnthropic.AFloat (LLMsAnthropic._temperature self))
          else if String.eqb key "max_tokens_to_sample"
          then Some (LLMsAnthropic.AInt (LLMsAnthropic._max_tokens self))
          else None
      end
    end.
Proof.
  unfold LLMsAnthropic._get_all_kwargs, LLMsAnthropic._model_kwargs.
  rewrite !lookup_union.
  destruct (kwargs !! key) as [v|];
    destruct (LLMsAnthropic._additional_kwargs self !! key) as [v'|];
    cbn [union_with option_union_with]; try reflexivity;
    try (destruct (_ !! key); reflexivity).
  rewrite !lookup_insert, lookup_empty.
  destruct (String.eqb_spec key "model") as [->|Hmodel];
    [rewrite decide_True by reflexivity; reflexivity|].
  rewrite decide_False by congruence.
  destruct (String.eqb_spec key "temperature") as [->|Htemp];
    [rewrite decide_True by reflexivity; reflexivity|].
  rewrite decide_False by congruence.
  destruct (String.eqb_spec key "max_tokens_to_sample") as [->|Hmax];
    [rewrite decide_True by reflexivity; reflexivity|].
  rewrite decide_False by congruence. reflexivity.
Qed.

(** The response that [gen] yields at position [k]. *)
Lemma gen_lookup (acc : string) (chunks : list LLMsAnthropic.Completion)
  (k : nat) (resp : LLMsAnthropic.ChatResponse) :
  LLMsAnthropic.gen acc chunks !! k = Some resp ->
  exists chunk,
    chunks !! k = Some chunk
    /\ LLMsAnthropic.role (LLMsAnthropic.message resp) =
       LLMsAnthropic.ASSISTANT
    /\ LLMsAnthropic.content (LLMsAnthropic.message resp) =
       acc +:+ join "" (map LLMsAnthropic.completion (take (S k) chunks))
    /\ LLMsAnthropic.delta resp = Some (LLMsAnthropic.completion chunk)
    /\ LLMsAnthropic.raw resp = Some chunk.
Proof.
  revert acc k. induction chunks as [|c chunks IH]; intros acc k Hk;
    [discriminate|].
  destruct k as [|k].
  - injection Hk as <-. exists c. cbn [LLMsAnthropic.message
      LLMsAnthropic.role LLMsAnthropic.content LLMsAnthropic.delta
      LLMsAnthropic.raw].
    repeat split; reflexivity.
  - cbn [LLMsAnthropic.gen] in Hk.
    change ((?x :: ?l) !! S k) with (l !! k) in Hk.
    destruct (IH _ _ Hk) as (chunk & Hchunk & Hrole & Hcontent & Hdelta & Hraw).
    exists chunk. split; [exact Hchunk|]. split; [exact Hrole|].
    split; [|split; assumption].
    rewrite Hcontent.
    change (take (S (S k)) (c :: chunks)) with (c :: take (S k) chunks).
    cbn [map]. rewrite join_empty_cons. apply string_append_assoc.
Qed.

Lemma gen_length (acc : string) (chunks : list LLMsAnthropic.Completion) :
  length (LLMsAnthropic.gen acc chunks) = length chunks.
Proof.
  revert acc. induction chunks as [|c chunks IH]; intros acc; [reflexivity|].
  cbn [LLMsAnthropic.gen length]. rewrite IH. reflexivity.
Qed.

(** X22: what [stream_chat] yields.  When it returns, the client was asked
    for a stream with the prompt of the messages and the merged keywords,
    and there is one response per chunk, in order: the response at
    position k has the role ASSISTANT, as content the texts of the chunks
    0 to k written one after the other, as delta the text of chunk k, and
    chunk k as raw. *)
Theorem stream_chat_accumulates
  (messages_to_anthropic_prompt : list LLMsAnthropic.ChatMessage -> string)
  (self : LLMsAnthropic.Anthropic)
  (messages : list LLMsAnthropic.ChatMessage)
  (kwargs : LLMsAnthropic.Kwargs)
  (responses : list LLMsAnthropic.ChatResponse) :
  LLMsAnthropic.stream_chat messages_to_anthropic_prompt self messages kwargs
    = inr responses ->
  exists (chunks : list LLMsAnthropic.Completion),
    LLMsAnthropic.create_stream (LLMsAnthropic._client self)
      (messages_to_anthropic_prompt messages)
      (LLMsAnthropic._get_all_kwargs self kwargs) = inr chunks
    /\ length responses = length chunks
    /\ forall (k : nat) (resp : LLMsAnthropic.ChatResponse),
         responses !! k = Some resp ->
         exists chunk,
           chunks !! k = Some chunk
           /\ LLMsAnthropic.role (LLMsAnthropic.message resp) =
              LLMsAnthropic.ASSISTANT
           /\ LLMsAnthropic.content (LLMsAnthropic.message resp) =
              join "" (map LLMsAnthropic.completion (take (S k) chunks))
           /\ LLMsAnthropic.delta resp =
              Some (LLMsAnthropic.completion chunk)
           /\ LLMsAnthropic.raw resp = Some chunk.
Proof.
  unfold LLMsAnthropic.stream_chat, ebind. intros Hrun.
  destruct (LLMsAnthropic.keywords_clash _); [discriminate|].
  destruct (LLMsAnthropic.create_stream _ _ _) as [err|chunks];
    [discriminate|].
  injection Hrun as <-. exists chunks.
  split; [reflexivity|]. split; [apply gen_length|].
  intros k resp Hk. apply gen_lookup in Hk. exact Hk.
Qed.

Lemma stream_chat_accumulates_witness :
  exists (chunks : list LLMsAnthropic.Completion),
    LLMsAnthropic.create_stream (LLMsAnthropic._client hello_anthropic)
      (plain_prompt [ {| LLMsAnthropic.role := LLMsAnthropic.OtherRole "user";
                         LLMsAnthropic.content := "Hi" |} ])
      (LLMsAnthropic._get_all_kwargs hello_anthropic ∅) = inr chunks
    /\ length (LLMsAnthropic.gen ""
                 [ {| LLMsAnthropic.completion := "Hello";
                      LLMsAnthropic.other_fields := ∅ |};
                   {| LLMsAnthropic.completion := " world";
                      LLMsAnthropic.other_fields := ∅ |} ]) = length chunks
    /\ forall (k : nat) (resp : LLMsAnthropic.ChatResponse),
         LLMsAnthropic.gen ""
           [ {| LLMsAnthropic.completion := "Hello";
                LLMsAnthropic.other_fields := ∅ |};
             {| LLMsAnthropic.completion := " world";
                LLMsAnthropic.other_fields := ∅ |} ] !! k = Some resp ->
         exists chunk,
           chunks !! k = Some chunk
           /\ LLMsAnthropic.role (LLMsAnthropic.message resp) =
              LLMsAnthropic.ASSISTANT
           /\ LLMsAnthropic.content (LLMsAnthropic.message resp) =
              join "" (map LLMsAnthropic.completion (take (S k) chunks))
           /\ LLMsAnthropic.delta resp =
              Some (LLMsAnthropic.completion chunk)
           /\ LLMsAnthropic.raw resp = Some chunk.
Proof.
  apply (stream_chat_accumulates plain_prompt hello_anthropic
           [ {| LLMsAnthropic.role := LLMsAnthropic.OtherRole "user";
                LLMsAnthropic.content := "Hi" |} ] ∅
           (LLMsAnthropic.gen ""
              [ {| LLMsAnthropic.completion := "Hello";
                   LLMsAnthropic.other_fields := ∅ |};
                {| LLMsAnthropic.completion := " world";
                   LLMsAnthropic.other_fields := ∅ |} ])).
  vm_compute. reflexivity.
Defined.

(** X23: streaming and plain chat agree in the end.  When, for the same
    request, the chunks the client streams spell the completion it answers
    at once, and there is at least one chunk, the message of the last
    response of [stream_chat] is the message of the response of [chat]. *)
Theorem stream_chat_ends_in_chat_message
  (messages_to_anthropic_prompt : list LLMsAnthropic.ChatMessage -> string)
  (self : LLMsAnthropic.Anthropic)
  (messages : list LLMsAnthropic.ChatMessage)
  (kwargs : LLMsAnthropic.Kwargs)
  (whole : LLMsAnthropic.Completion)
  (chunks : list LLMsAnthropic.Completion) :
  LLMsAnthropic.keywords_clash (LLMsAnthropic._get_all_kwargs self kwargs) =
    false ->
  LLMsAnthropic.create (LLMsAnthropic._client self)
    (messages_to_anthropic_prompt messages)
    (LLMsAnthropic._get_all_kwargs self kwargs) = inr whole ->
  LLMsAnthropic.create_stream (LLMsAnthropic._client self)
    (messages_to_anthropic_prompt messages)
    (LLMsAnthropic._get_all_kwargs self kwargs) = inr chunks ->
  LLMsAnthropic.completion whole =
    join "" (map LLMsAnthropic.completion chunks) ->
  chunks <> [] ->
  exists (response final : LLMsAnthropic.ChatResponse)
         (responses : list LLMsAnthropic.ChatResponse),
    LLMsAnthropic.chat messages_to_anthropic_prompt self messages kwargs =
      inr response
    /\ LLMsAnthropic.stream_chat messages_to_anthropic_prompt self messages
         kwargs = inr responses
    /\ last responses = Some final
    /\ LLMsAnthropic.message final = LLMsAnthropic.message response.
Proof.
  intros Hclash Hwhole Hchunks Hspell Hnonempty.
  unfold LLMsAnthropic.chat, LLMsAnthropic.stream_chat, ebind.
  rewrite Hclash, Hwhole, Hchunks.
  destruct (last (LLMsAnthropic.gen "" chunks)) as [final|] eqn:Hlast.
  - do 3 eexists. split; [reflexivity|]. split; [reflexivity|].
    split; [exact Hlast|].
    rewrite last_lookup, gen_length in Hlast.
    apply gen_lookup in Hlast
      as (chunk & Hchunk & Hrole & Hcontent & _ & _).
    destruct (LLMsAnthropic.message final) as [frole fcontent].
    cbn [LLMsAnthropic.role LLMsAnthropic.content LLMsAnthropic.message] in *.
    subst frole. rewrite Hcontent, Hspell.
    rewrite take_ge by (destruct chunks; cbn [length Nat.pred]; lia).
    reflexivity.
  - apply last_None in Hlast.
    apply (f_equal length) in Hlast. rewrite gen_length in Hlast.
    destruct chunks; [congruence|discriminate].
Qed.

Lemma stream_chat_ends_in_chat_message_witness :
  exists (response final : LLMsAnthropic.ChatResponse)
         (responses : list LLMsAnthropic.ChatResponse),
    LLMsAnthropic.chat plain_prompt hello_anthropic [] ∅ = inr response
    /\ LLMsAnthropic.stream_chat plain_prompt hello_anthropic [] ∅ =
       inr responses
    /\ last responses = Some final
    /\ LLMsAnthropic.message final = LLMsAnthropic.message response.
Proof.
  apply (stream_chat_ends_in_chat_message plain_prompt hello_anthropic [] ∅
           {| LLMsAnthropic.completion := "Hello world";
              LLMsAnthropic.other_fields := ∅ |}
           [ {| LLMsAnthropic.completion := "Hello";
                LLMsAnthropic.other_fields := ∅ |};
             {| LLMsAnthropic.completion := " world";
                LLMsAnthropic.other_fields := ∅ |} ]).
  - vm_compute. reflexivity.
  - reflexivity.
  - reflexivity.
  - reflexivity.
  - discriminate.
Defined.

(** X24: the keywords prompt and stream are taken by the call to the
    client.  When the keywords of a call, or [additional_kwargs], name
    prompt or stream, each of [chat], [stream_chat], [achat] and
    [astream_chat] raises a [TypeError] (a keyword given twice), whatever
    the client would answer. *)
Theorem reserved_keyword_is_type_error
  (messages_to_anthropic_prompt : list LLMsAnthropic.ChatMessage -> string)
  (self : LLMsAnthropic.Anthropic)
  (messages : list LLMsAnthropic.ChatMessage)
  (kwargs : LLMsAnthropic.Kwargs) (key : string) :
  key = "prompt" \/ key = "stream" ->
  is_Some (kwargs !! key)
  \/ is_Some (LLMsAnthropic._additional_kwargs self !! key) ->
  LLMsAnthropic.chat messages_to_anthropic_prompt self messages kwargs =
    inl LLMsAnthropic.multiple_values
  /\ LLMsAnthropic.stream_chat messages_to_anthropic_prompt self messages
       kwargs = inl LLMsAnthropic.multiple_values
  /\ LLMsAnthropic.achat messages_to_anthropic_prompt self messages kwargs =
       inl LLMsAnthropic.multiple_values
  /\ LLMsAnthropic.astream_chat messages_to_anthropic_prompt self messages
       kwargs = inl LLMsAnthropic.multiple_values.
Proof.
  intros Hkey Hgiven.
  assert (Hmerged :
    is_Some (LLMsAnthropic._get_all_kwargs self kwargs !! key)).
  { unfold LLMsAnthropic._get_all_kwargs, LLMsAnthropic._model_kwargs.
    apply lookup_union_is_Some.
    destruct Hgiven as [Hcall|Hadditional]; [left; exact Hcall|].
    right. apply lookup_union_is_Some. left. exact Hadditional. }
  assert (Hclash :
    LLMsAnthropic.keywords_clash (LLMsAnthropic._get_all_kwargs self kwargs)
    = true).
  { unfold LLMsAnthropic.keywords_clash.
    destruct Hkey as [->| ->].
    - rewrite bool_decide_eq_true_2 by exact Hmerged. reflexivity.
    - rewrite (bool_decide_eq_true_2 _ Hmerged). apply orb_true_r. }
  unfold LLMsAnthropic.chat, LLMsAnthropic.stream_chat, LLMsAnthropic.achat,
    LLMsAnthropic.astream_chat.
  rewrite Hclash. repeat split; reflexivity.
Qed.

Lemma reserved_keyword_is_type_error_witness :
  LLMsAnthropic.chat plain_prompt hello_anthropic []
    (<["stream" := LLMsAnthropic.ABool true]> ∅) =
    inl LLMsAnthropic.multiple_values
  /\ LLMsAnthropic.stream_chat plain_prompt hello_anthropic []
       (<["stream" := LLMsAnthropic.ABool true]> ∅) =
     inl LLMsAnthropic.multiple_values
  /\ LLMsAnthropic.achat plain_prompt hello_anthropic []
       (<["stream" := LLMsAnthropic.ABool true]> ∅) =
     inl LLMsAnthropic.multiple_values
  /\ LLMsAnthropic.astream_chat plain_prompt hello_anthropic []
       (<["stream" := LLMsAnthropic.ABool true]> ∅) =
     inl LLMsAnthropic.multiple_values.
Proof.
  apply (reserved_keyword_is_type_error plain_prompt hello_anthropic []
           (<["stream" := LLMsAnthropic.ABool true]> ∅) "stream").
  - right. reflexivity.
  - left. exists (LLMsAnthropic.ABool true). reflexivity.
Defined.
